(** * WikiSession (etl/etl/wiki.py): publishing a competition to a wiki

    A shallow embedding of [WikiSession] and of the part of its
    environment that its methods touch: the remote page store reached
    through [mwclient], the local files read for attachments, and the
    operator output.  Every method is a computation in a small monad
    that threads the world, records the calls issued in order, and
    propagates Python exceptions. *)

From Stdlib Require Import List String Ascii Bool Arith Lia.
Import ListNotations.
Local Open Scope string_scope.
Local Open Scope list_scope.

(** ** Collaborators of the session *)

(** Modelled from the spec: [etl/competition.py] is not part of the
    sources; a record (Proposal) offers [key()] and
    [cell(column) -> value | absent], and only the title column is ever
    read here, so the record carries the result of
    [cell(MediaWikiTitleAdder.title_column_name)] ([None] is Python's
    [None]). *)
Record Proposal := {
  key : string;
  title_cell : option string
}.

(** Modelled from the spec: a Toc has a name, a raw flag, a template
    reference and a grouped-data payload; [grouped_json] holds
    [json.dumps(toc.grouped_data())]. *)
Record Toc := {
  toc_name : string;
  raw : bool;
  template_file : string;
  grouped_json : string
}.

(** Modelled from the spec: an attachment is a (key, column-name, file
    reference, local path) tuple. *)
Record Attachment := {
  att_key : string;
  column_name : string;
  file : string;
  path : string
}.

(** Modelled from the spec: the dataset offers [to_csv], [key_column_name],
    [ordered_proposals()] and [tocs]; [csv] holds
    [comp.to_csv(io.StringIO()).getvalue()]. *)
Record Competition := {
  key_column_name : string;
  csv : string;
  tocs : list Toc;
  ordered_proposals : list Proposal
}.

(** ** Calls, events and the world *)

(** A Python dict of request parameters: values may be [None]. *)
Definition params := list (string * option string).

Inductive call :=
| RawCall (script : string) (data : params) (files : list (string * string))
| PageGet (title : string)             (* self.site.pages[title] *)
| PageSave (title body : string)       (* p.save(body) *)
| AllPages                             (* self.site.allpages() *)
| FileRead (path : string).            (* open(path, "rb") ... read() *)

(** What an observer sees, in order: a call that returned, a call that
    raised, a line printed. *)
Inductive event :=
| Did (c : call)
| Raised (c : call)
| Printed (line : string).

Inductive exn :=
| TransportError                       (* raised inside mwclient *)
| IOError                              (* raised by open/read *)
| PyException (msg : string).          (* raise Exception(msg) *)

Inductive result (A : Type) :=
| Ok (a : A)
| Raise (e : exn).
Arguments Ok {A} a.
Arguments Raise {A} e.

(** The remote pages (title, content) in listing order, the local files,
    and the schedule of transport faults: each remote call consumes one
    entry, [true] makes it raise; an exhausted schedule means no further
    fault. *)
Record World := {
  pages : list (string * string);
  local_files : list (string * string);
  faults : list bool
}.

Record Outcome (A : Type) := {
  res : result A;
  world : World;
  evs : list event
}.
Arguments res {A} o.
Arguments world {A} o.
Arguments evs {A} o.
Arguments Build_Outcome {A} res world evs.

Definition M (A : Type) := World -> Outcome A.

Definition ret {A} (a : A) : M A :=
  fun w => Build_Outcome (Ok a) w [].

Definition raise {A} (e : exn) : M A :=
  fun w => Build_Outcome (Raise e) w [].

Definition bind {A B} (m : M A) (k : A -> M B) : M B :=
  fun w =>
    let o := m w in
    match res o with
    | Ok a =>
        let o' := k a (world o) in
        Build_Outcome (res o') (world o') (evs o ++ evs o')
    | Raise e => Build_Outcome (Raise e) (world o) (evs o)
    end.

Notation "x <- m ;; k" := (bind m (fun x => k))
  (at level 61, m at next level, right associativity).
Notation "m ;; k" := (bind m (fun _ => k))
  (at level 61, right associativity).

(** [try: m except: h] with a bare [except]. *)
Definition try_except {A} (m : M A) (h : M A) : M A :=
  fun w =>
    let o := m w in
    match res o with
    | Ok a => o
    | Raise _ =>
        let o' := h (world o) in
        Build_Outcome (res o') (world o') (evs o ++ evs o')
    end.

(** [for x in l: f x] *)
Fixpoint for_each {A} (f : A -> M unit) (l : list A) : M unit :=
  match l with
  | [] => ret tt
  | x :: l' => f x ;; for_each f l'
  end.

Definition print (line : string) : M unit :=
  fun w => Build_Outcome (Ok tt) w [Printed line].

Fixpoint assoc {V} (k : string) (l : list (string * V)) : option V :=
  match l with
  | [] => None
  | (k', v) :: l' => if String.eqb k k' then Some v else assoc k l'
  end.

Fixpoint store_set (t body : string) (l : list (string * string))
  : list (string * string) :=
  match l with
  | [] => [(t, body)]
  | (t', b') :: l' =>
      if String.eqb t t' then (t, body) :: l' else (t', b') :: store_set t body l'
  end.

Definition with_faults (f : list bool) (w : World) : World :=
  {| pages := pages w; local_files := local_files w; faults := f |}.

Definition with_pages (p : list (string * string)) (w : World) : World :=
  {| pages := p; local_files := local_files w; faults := faults w |}.

(** A call to the remote store: it is issued, then succeeds or raises as
    the schedule says. *)
Definition remote (c : call) : M unit :=
  fun w =>
    match faults w with
    | true :: f => Build_Outcome (Raise TransportError) (with_faults f w) [Raised c]
    | false :: f => Build_Outcome (Ok tt) (with_faults f w) [Did c]
    | [] => Build_Outcome (Ok tt) w [Did c]
    end.

Definition get_world : M World :=
  fun w => Build_Outcome (Ok w) w [].

Definition set_pages (p : list (string * string)) : M unit :=
  fun w => Build_Outcome (Ok tt) (with_pages p w) [].

(** [mwclient]: [site.raw_call(script, data, files)]; the response is
    never looked at. *)
Definition raw_call (script : string) (data : params)
    (files : list (string * string)) : M unit :=
  remote (RawCall script data files).

(** [mwclient]: a page handle, with its [exists] attribute as fetched. *)
Record Page := {
  page_name : string;
  page_exists : bool
}.

Definition is_some {V} (o : option V) : bool :=
  match o with Some _ => true | None => false end.

(** [self.site.pages[title]] *)
Definition site_pages (title : string) : M Page :=
  remote (PageGet title) ;;
  w <- get_world ;;
  ret {| page_name := title; page_exists := is_some (assoc title (pages w)) |}.

(** [p.save(body)] *)
Definition page_save (p : Page) (body : string) : M unit :=
  remote (PageSave (page_name p) body) ;;
  w <- get_world ;;
  set_pages (store_set (page_name p) body (pages w)).

(** [[page.name for page in self.site.allpages()]] *)
Definition allpages_names : M (list string) :=
  remote AllPages ;;
  w <- get_world ;;
  ret (map fst (pages w)).

(** [with open(path, "rb") as s: ... s.read()] *)
Definition open_read (p : string) : M string :=
  fun w =>
    match assoc p (local_files w) with
    | Some content => Build_Outcome (Ok content) w [Did (FileRead p)]
    | None => Build_Outcome (Raise IOError) w [Raised (FileRead p)]
    end.

(** ** WikiSession *)

Record WikiSession := {
  competition_name : string;
  csv_only : bool
}.

Definition nl : string := String (ascii_of_nat 10) EmptyString.

Definition generated_comment : string :=
  "<!-- This page is generated by the ETL pipelines in the https://github.com/OpenTechStrategies/torque-sites/. It is rendered based on the template in the Torque Configuration (TorqueConfig:MainConfig), and the '#tdcrender' line below is correct. Normally, this page should not be edited, as any edits you make here will not be stored in the Torque database and thus would be lost the next time the ETL process is run.-->".

Definition toc_page_body (self : WikiSession) (name : string) : string :=
  generated_comment ++ nl ++ "{{ #tdcrender:" ++ competition_name self
    ++ "/toc/" ++ name ++ ".mwiki }}".

Definition proposal_page_body (self : WikiSession) (k : string) : string :=
  generated_comment ++ nl ++ "{{ #tdcrender:" ++ competition_name self
    ++ "/id/" ++ k ++ ".mwiki }}".

Definition upload_toc_data (self : WikiSession) (toc : Toc) : params :=
  [ ("action", Some "torquedataconnectuploadtoc");
    ("format", Some "json");
    ("sheet_name", Some (competition_name self));
    ("toc_name", Some (toc_name toc));
    ("raw_toc", if raw toc then Some "true" else None) ].

Definition upload_toc (self : WikiSession) (toc : Toc) : M unit :=
  raw_call "api" (upload_toc_data self toc)
    [ ("template", template_file toc); ("json", grouped_json toc) ] ;;
  p <- site_pages (toc_name toc) ;;
  if negb (page_exists p)
  then page_save p (toc_page_body self (toc_name toc))
  else ret tt.

Definition create_page (self : WikiSession) (page_title body : string)
    (create_if_exists : bool) : M unit :=
  if String.eqb page_title EmptyString
  then ret tt
  else
    try_except
      (p <- site_pages page_title ;;
       if negb (page_exists p) || create_if_exists
       then page_save p body
       else ret tt)
      (print (page_title ++ " failed to save")).

Definition title_adder_message : string :=
  "Competition needs the page title adder run".

Definition create_pages_body (self : WikiSession) (proposal : Proposal) : M unit :=
  match title_cell proposal with
  | None => raise (PyException title_adder_message)
  | Some page_title =>
      create_page self page_title (proposal_page_body self (key proposal)) false
  end.

Definition create_pages (self : WikiSession) (comp : Competition) : M unit :=
  for_each (create_pages_body self) (ordered_proposals comp).

(** [x in l] on a list of cell values, some of which may be [None]. *)
Definition py_in (t : string) (l : list (option string)) : bool :=
  existsb (fun c => match c with Some t' => String.eqb t t' | None => false end) l.

Definition audit_header : string :=
  "The following pages are in the wiki, but not added via the etl pipeline".

Definition sanity_check_wiki (self : WikiSession) (comp : Competition) : M unit :=
  let added_pages := map title_cell (ordered_proposals comp) in
  all_pages <- allpages_names ;;
  print audit_header ;;
  for_each
    (fun page_title =>
       if negb (py_in page_title added_pages) then print page_title else ret tt)
    all_pages.

Definition upload_sheet_data (self : WikiSession) (comp : Competition) : params :=
  [ ("action", Some "torquedataconnectuploadsheet");
    ("format", Some "json");
    ("object_name", Some "proposal");
    ("sheet_name", Some (competition_name self));
    ("key_column", Some (key_column_name comp)) ].

Definition upload_sheet (self : WikiSession) (comp : Competition) : M unit :=
  raw_call "api" (upload_sheet_data self comp) [ ("data_file", csv comp) ] ;;
  for_each (upload_toc self) (tocs comp) ;;
  (if negb (csv_only self) then create_pages self comp else ret tt) ;;
  sanity_check_wiki self comp.

Definition upload_attachment_data (self : WikiSession) (a : Attachment) : params :=
  [ ("action", Some "torquedataconnectuploadattachment");
    ("format", Some "json");
    ("sheet_name", Some (competition_name self));
    ("object_id", Some (att_key a));
    ("permissions_column", Some (column_name a));
    ("attachment_name", Some (file a)) ].

Definition upload_attachments_body (self : WikiSession) (a : Attachment) : M unit :=
  print ("Uploading " ++ file a) ;;
  content <- open_read (path a) ;;
  raw_call "api" (upload_attachment_data self a) [ ("attachment", content) ].

Definition upload_attachments (self : WikiSession)
    (attachments : list Attachment) : M unit :=
  if csv_only self
  then ret tt
  else for_each (upload_attachments_body self) attachments.

(** Modelled from the spec: the caller is not part of the sources; a
    full run invokes publish sheet, then publish attachments. *)
Definition full_run (self : WikiSession) (comp : Competition)
    (attachments : list Attachment) : M unit :=
  upload_sheet self comp ;;
  upload_attachments self attachments.

(** How the transport puts a parameter dict on the wire: [mwclient]
    hands [data] to [requests], whose form encoding leaves out every
    entry whose value is [None]. *)
Fixpoint transmitted (data : params) : list (string * string) :=
  match data with
  | [] => []
  | (k, Some v) :: data' => (k, v) :: transmitted data'
  | (_, None) :: data' => transmitted data'
  end.

(** ** Observations on a run *)

Definition issued (e : event) : option call :=
  match e with
  | Did c | Raised c => Some c
  | Printed _ => None
  end.

Definition action_of (c : call) : option string :=
  match c with
  | RawCall _ data _ =>
      match assoc "action" data with
      | Some (Some a) => Some a
      | _ => None
      end
  | _ => None
  end.

Definition has_action (a : string) (e : event) : bool :=
  match issued e with
  | Some c =>
      match action_of c with
      | Some a' => String.eqb a a'
      | None => false
      end
  | None => false
  end.

Definition is_attachment_upload : event -> bool :=
  has_action "torquedataconnectuploadattachment".

Definition is_sheet_upload : event -> bool :=
  has_action "torquedataconnectuploadsheet".

Definition is_listing (e : event) : bool :=
  match issued e with Some AllPages => true | _ => false end.

Definition is_file_read (e : event) : bool :=
  match issued e with Some (FileRead _) => true | _ => false end.


(** Titles of the pages fetched, in order. *)
Definition fetch_of (e : event) : list string :=
  match issued e with Some (PageGet t) => [t] | _ => [] end.
Definition titles_fetched : list event -> list string := flat_map fetch_of.

(** Pages saved (title, body), in order, whether or not the save returned. *)
Definition save_of (e : event) : list (string * string) :=
  match issued e with Some (PageSave t b) => [(t, b)] | _ => [] end.
Definition saves : list event -> list (string * string) := flat_map save_of.

(** Paths opened for reading, in order. *)
Definition read_of (e : event) : list string :=
  match issued e with Some (FileRead p) => [p] | _ => [] end.
Definition files_read : list event -> list string := flat_map read_of.

(** Parameter dicts of the raw calls issued, in order. *)
Definition raw_call_of (e : event) : list params :=
  match issued e with Some (RawCall _ d _) => [d] | _ => [] end.
Definition raw_calls : list event -> list params := flat_map raw_call_of.

(** Lines printed, in order. *)
Definition line_of (e : event) : list string :=
  match e with Printed s => [s] | _ => [] end.
Definition printed : list event -> list string := flat_map line_of.


Definition prefix {A} (l1 l2 : list A) : Prop :=
  exists l3, l2 = l1 ++ l3.


(** Every event of every run of [m] satisfies [P]. *)
Definition emits {A} (P : event -> Prop) (m : M A) : Prop :=
  forall w, Forall P (evs (m w)).


(** No run of [m] shows anything under the observation [obs]. *)
Definition silent {A C} (obs : event -> list C) (m : M A) : Prop :=
  forall w, flat_map obs (evs (m w)) = [].

(** Under [obs], every run of [m] shows a prefix of [L], and all of [L]
    when it returns. *)
Definition shows {A C} (obs : event -> list C) (L : list C) (m : M A) : Prop :=
  forall w,
    prefix (flat_map obs (evs (m w))) L /\
    (forall a, res (m w) = Ok a -> flat_map obs (evs (m w)) = L).

(** The records ahead of the first one without a title. *)
Fixpoint titled_prefix (l : list Proposal) : list Proposal :=
  match l with
  | [] => []
  | r :: l' =>
      match title_cell r with
      | None => []
      | Some _ => r :: titled_prefix l'
      end
  end.

(** Titles for which [create_page] goes to the wiki: present and not empty. *)
Definition nonempty_titles (l : list Proposal) : list string :=
  flat_map (fun r => match title_cell r with
                     | Some t => if String.eqb t EmptyString then [] else [t]
                     | None => []
                     end) l.

(** The lines printed are the titles whose fetch or save raised. *)
Definition failure_line (t : string) : string := t ++ " failed to save".


(** The strict reading of the title precondition: a record without a
    title makes [create_pages] raise with no page touched at all. *)
Definition strict_title_precondition (self : WikiSession) (comp : Competition)
    (w : World) : Prop :=
  (exists r, In r (ordered_proposals comp) /\ title_cell r = None) ->
  let o := create_pages self comp w in
  res o = Raise (PyException title_adder_message) /\
  titles_fetched (evs o) = [] /\ saves (evs o) = [].

(** The strict reading of data-only mode: the sheet goes up, no TOC
    display page is saved and no attachment is uploaded. *)
Definition data_only_suppression (self : WikiSession) (comp : Competition)
    (w : World) : Prop :=
  csv_only self = true ->
  let o := upload_sheet self comp w in
  (exists e rest, evs o = e :: rest /\ is_sheet_upload e = true) /\
  (forall toc, In toc (tocs comp) ->
     ~ In (toc_name toc, toc_page_body self (toc_name toc)) (saves (evs o))) /\
  Forall (fun e => is_attachment_upload e = false) (evs o).

(** A save that writes the display page of one of the TOCs. *)
Definition toc_page_save (self : WikiSession) (comp : Competition)
    (tb : string * string) : Prop :=
  exists toc, In toc (tocs comp) /\
    tb = (toc_name toc, toc_page_body self (toc_name toc)).

Definition both (P : event -> Prop) (c : call) : Prop :=
  P (Did c) /\ P (Raised c).

(** ** A small competition to run things on *)

Module Sample.
Definition ses : WikiSession :=
  {| competition_name := "LFC"; csv_only := false |}.
Definition ses_csv : WikiSession :=
  {| competition_name := "LFC"; csv_only := true |}.

Definition p1 : Proposal := {| key := "p1"; title_cell := Some "Page One" |}.
Definition p2 : Proposal := {| key := "p2"; title_cell := Some "Page Two" |}.
Definition untitled : Proposal := {| key := "p3"; title_cell := None |}.
Definition blank : Proposal := {| key := "p4"; title_cell := Some EmptyString |}.

Definition regions : Toc :=
  {| toc_name := "Regions"; raw := false;
     template_file := "Regions.mwiki"; grouped_json := "{}" |}.

Definition doc_pdf : Attachment :=
  {| att_key := "p1"; column_name := "Attachments";
     file := "doc.pdf"; path := "/data/doc.pdf" |}.
Definition lost_pdf : Attachment :=
  {| att_key := "p2"; column_name := "Attachments";
     file := "lost.pdf"; path := "/data/lost.pdf" |}.

Definition with_proposals (l : list Proposal) : Competition :=
  {| key_column_name := "Application #"; csv := "Application #,Title";
     tocs := [regions]; ordered_proposals := l |}.

Definition comp : Competition := with_proposals [p1; p2].

(** An empty wiki, the one local file, no fault. *)
Definition fresh : World :=
  {| pages := []; local_files := [("/data/doc.pdf", "%PDF")]; faults := [] |}.

(** A wiki that already holds the two proposal pages and one more. *)
Definition populated : World :=
  {| pages := [("Page One", "one"); ("Page Two", "two"); ("Stray", "x")];
     local_files := [("/data/doc.pdf", "%PDF")]; faults := [] |}.

Definition faulty (f : list bool) : World := with_faults f fresh.
End Sample.

(** ** Opening a session *)

(** [url.split("://")]: the pieces between the occurrences of the
    separator, found left to right. *)
Fixpoint split_sep (s : string) : list string :=
  match s with
  | EmptyString => [EmptyString]
  | String c s' =>
      let plain :=
        match split_sep s' with
        | h :: t => String c h :: t
        | [] => [String c EmptyString]
        end in
      if Ascii.eqb c ":" then
        match s' with
        | String c1 (String c2 rest) =>
            if Ascii.eqb c1 "/" && Ascii.eqb c2 "/"
            then EmptyString :: split_sep rest
            else plain
        | _ => plain
        end
      else plain
  end.

(** [sep.join(l)] for the same separator. *)
Fixpoint join_sep (l : list string) : string :=
  match l with
  | [] => EmptyString
  | [x] => x
  | x :: l' => x ++ "://" ++ join_sep l'
  end.

Definition starts_sep (s : string) : bool :=
  match s with
  | String c (String c1 (String c2 _)) =>
      Ascii.eqb c ":" && Ascii.eqb c1 "/" && Ascii.eqb c2 "/"
  | _ => false
  end.

(** The separator occurs somewhere in [s]. *)
Fixpoint contains_sep (s : string) : bool :=
  match s with
  | EmptyString => false
  | String _ s' => starts_sep s || contains_sep s'
  end.

(** What [__init__] asks of [mwclient]. *)
Inductive setup_call :=
| SiteConnect (host path scheme : string) (timeout : nat)
| SiteLogin (username password : string).

Inductive init_error :=
| ValueError                           (* the unpacking of the split *)
| ConnectError                         (* raised by mwclient.Site(...) *)
| LoginError.                          (* raised by site.login(...) *)

(** [WikiSession.__init__]; [env] tells which calls to [mwclient]
    return.  The result is the session or the exception, with the calls
    made. *)
Definition init (env : setup_call -> bool)
    (username password competition_name url : string)
  : (init_error + WikiSession) * list setup_call :=
  match split_sep url with
  | [scheme; host] =>
      let connect := SiteConnect host "/" scheme 300 in
      if env connect then
        let login := SiteLogin username password in
        if env login
        then (inr {| competition_name := competition_name; csv_only := false |},
              [connect; login])
        else (inl LoginError, [connect; login])
      else (inl ConnectError, [connect])
  | _ => (inl ValueError, [])
  end.

(** ** What a run leaves of the wiki *)

(** Every page of [p] is in [p'] with the same content. *)
Definition keeps (p p' : list (string * string)) : Prop :=
  forall t c, assoc t p = Some c -> assoc t p' = Some c.

(** No run of [m] changes or removes a page that was there. *)
Definition non_destructive {A} (m : M A) : Prop :=
  forall w, keeps (pages w) (pages (world (m w))).

(** No run of [m] touches the pages or the local files. *)
Definition read_only {A} (m : M A) : Prop :=
  forall w, pages (world (m w)) = pages w /\
            local_files (world (m w)) = local_files w.

(** A run from [w] in which nothing fails returns, with no fault left
    pending. *)
Definition calm {A} (m : M A) : Prop :=
  forall w, faults w = [] ->
    exists a, res (m w) = Ok a /\ faults (world (m w)) = [].

(** The page of every record with a non-empty title is on the wiki. *)
Definition record_pages_present (l : list Proposal) (p : list (string * string))
  : Prop :=
  forall r t, In r l -> title_cell r = Some t -> t <> EmptyString ->
              is_some (assoc t p) = true.

(** The display page of every TOC is on the wiki. *)
Definition toc_pages_present (l : list Toc) (p : list (string * string)) : Prop :=
  forall toc, In toc l -> is_some (assoc (toc_name toc) p) = true.

(** The events of one attachment that goes through. *)
Definition attachment_events (self : WikiSession) (w : World) (a : Attachment)
  : list event :=
  match assoc (path a) (local_files w) with
  | Some content =>
      [ Printed ("Uploading " ++ file a);
        Did (FileRead (path a));
        Did (RawCall "api" (upload_attachment_data self a)
               [("attachment", content)]) ]
  | None => []
  end.

(** Unfold the monad and the primitive calls, then compute. *)
Ltac run :=
  cbv beta iota zeta delta
    [try_except bind site_pages page_save allpages_names raw_call
     open_read remote get_world set_pages ret raise print];
  simpl.

(** ** The monad *)

Section Monad.
Context {A B : Type}.

Lemma outcome_eta (o : Outcome A) :
  Build_Outcome (res o) (world o) (evs o) = o.
Proof. destruct o; reflexivity. Qed.

Lemma bind_ok (m : M A) (k : A -> M B) w a :
  res (m w) = Ok a ->
  bind m k w =
    Build_Outcome (res (k a (world (m w)))) (world (k a (world (m w))))
                  (evs (m w) ++ evs (k a (world (m w)))).
Proof. intros H; unfold bind; rewrite H; reflexivity. Qed.

Lemma bind_raise (m : M A) (k : A -> M B) w e :
  res (m w) = Raise e ->
  bind m k w = Build_Outcome (Raise e) (world (m w)) (evs (m w)).
Proof. intros H; unfold bind; rewrite H; reflexivity. Qed.

Lemma bind_res_ok (m : M A) (k : A -> M B) w b :
  res (bind m k w) = Ok b ->
  exists a, res (m w) = Ok a /\ res (k a (world (m w))) = Ok b.
Proof.
  unfold bind; destruct (res (m w)) as [a|e] eqn:E; simpl; intros H.
  - exists a; auto.
  - discriminate.
Qed.

Lemma emits_bind (P : event -> Prop) (m : M A) (k : A -> M B) :
  emits P m -> (forall a, emits P (k a)) -> emits P (bind m k).
Proof.
  intros Hm Hk w; unfold bind.
  destruct (res (m w)); simpl.
  - apply Forall_app; split; [apply Hm | apply Hk].
  - apply Hm.
Qed.


End Monad.

Lemma emits_ret {A} (P : event -> Prop) (a : A) : emits P (ret a).
Proof. intros w; constructor. Qed.

Lemma emits_raise {A} (P : event -> Prop) e : emits P (@raise A e).
Proof. intros w; constructor. Qed.

Lemma emits_get_world (P : event -> Prop) : emits P get_world.
Proof. intros w; constructor. Qed.

Lemma emits_set_pages (P : event -> Prop) p : emits P (set_pages p).
Proof. intros w; constructor. Qed.

Lemma emits_print (P : event -> Prop) s : P (Printed s) -> emits P (print s).
Proof. intros H w; repeat constructor; exact H. Qed.

Lemma emits_remote (P : event -> Prop) c :
  P (Did c) -> P (Raised c) -> emits P (remote c).
Proof.
  intros H1 H2 w; unfold remote.
  destruct (faults w) as [|[] f]; repeat constructor; assumption.
Qed.

Lemma emits_open_read (P : event -> Prop) p :
  P (Did (FileRead p)) -> P (Raised (FileRead p)) -> emits P (open_read p).
Proof.
  intros H1 H2 w; unfold open_read.
  destruct (assoc p (local_files w)); repeat constructor; assumption.
Qed.

Lemma emits_try {A} (P : event -> Prop) (m h : M A) :
  emits P m -> emits P h -> emits P (try_except m h).
Proof.
  intros Hm Hh w; unfold try_except.
  destruct (res (m w)); simpl.
  - apply Hm.
  - apply Forall_app; split; [apply Hm | apply Hh].
Qed.

Lemma emits_for_each {A} (P : event -> Prop) (f : A -> M unit) l :
  (forall x, emits P (f x)) -> emits P (for_each f l).
Proof.
  intros Hf; induction l as [|x l IH]; simpl.
  - apply emits_ret.
  - apply emits_bind; auto.
Qed.

Lemma emits_if {A} (P : event -> Prop) (b : bool) (m1 m2 : M A) :
  emits P m1 -> emits P m2 -> emits P (if b then m1 else m2).
Proof. destruct b; auto. Qed.

(** ** Loops *)

Section ForEach.
Context {A : Type} (f : A -> M unit).

Lemma for_each_app l1 l2 w :
  for_each f (l1 ++ l2) w = (for_each f l1 ;; for_each f l2) w.
Proof.
  revert w; induction l1 as [|x l1 IH]; intros w; simpl.
  - unfold bind, ret; simpl; symmetry; apply outcome_eta.
  - unfold bind at 1 3; destruct (res (f x w)) eqn:E; simpl.
    + rewrite IH; unfold bind; rewrite E; simpl.
      destruct (res (for_each f l1 (world (f x w)))); simpl;
        rewrite ?app_assoc; reflexivity.
    + unfold bind; rewrite E; reflexivity.
Qed.

Lemma for_each_app_ok l1 l2 w :
  res (for_each f l1 w) = Ok tt ->
  for_each f (l1 ++ l2) w =
    let o1 := for_each f l1 w in
    let o2 := for_each f l2 (world o1) in
    Build_Outcome (res o2) (world o2) (evs o1 ++ evs o2).
Proof.
  intros H; rewrite for_each_app.
  rewrite (bind_ok _ (fun _ => for_each f l2) _ _ H); reflexivity.
Qed.

(** The loop stops at the first iteration that raises. *)
Lemma for_each_stop l1 x l2 w e :
  res (for_each f l1 w) = Ok tt ->
  res (f x (world (for_each f l1 w))) = Raise e ->
  for_each f (l1 ++ x :: l2) w =
    let o1 := for_each f l1 w in
    let ox := f x (world o1) in
    Build_Outcome (Raise e) (world ox) (evs o1 ++ evs ox).
Proof.
  intros H1 Hx; rewrite (for_each_app_ok _ _ _ H1); simpl.
  rewrite (bind_raise _ _ _ _ Hx); reflexivity.
Qed.

Lemma for_each_all_ok l w :
  (forall x w', In x l -> res (f x w') = Ok tt) ->
  res (for_each f l w) = Ok tt.
Proof.
  revert w; induction l as [|x l IH]; intros w Hf; simpl; auto.
  rewrite (bind_ok _ _ _ _ (Hf x w (or_introl eq_refl))); simpl.
  apply IH; intros; apply Hf; right; assumption.
Qed.

(** An observation made event by event adds up over the iterations,
    as long as they all return. *)
Lemma for_each_observe {C} (obs : event -> list C) (g : A -> list C) l w :
  (forall x w', In x l -> res (f x w') = Ok tt) ->
  (forall x w', In x l -> flat_map obs (evs (f x w')) = g x) ->
  flat_map obs (evs (for_each f l w)) = flat_map g l.
Proof.
  revert w; induction l as [|x l IH]; intros w Hok Hg; simpl; auto.
  rewrite (bind_ok _ _ _ _ (Hok x w (or_introl eq_refl))); simpl.
  rewrite flat_map_app, Hg by (simpl; auto).
  rewrite IH; auto; intros; [apply Hok | apply Hg]; simpl; auto.
Qed.


End ForEach.

(** ** create_page *)

Lemma create_page_empty self body flag w :
  create_page self EmptyString body flag w = Build_Outcome (Ok tt) w [].
Proof. reflexivity. Qed.

Lemma create_page_returns self t body flag w :
  res (create_page self t body flag w) = Ok tt.
Proof.
  unfold create_page; destruct (String.eqb t EmptyString); [reflexivity|].
  run; destruct (faults w) as [|[] [|[] f]] eqn:F; simpl;
    destruct (negb (is_some (assoc t (pages w))) || flag); simpl;
    rewrite ?F; reflexivity.
Qed.

Lemma create_page_fetched self t body flag w :
  titles_fetched (evs (create_page self t body flag w)) =
    if String.eqb t EmptyString then [] else [t].
Proof.
  unfold create_page; destruct (String.eqb t EmptyString); [reflexivity|].
  run; destruct (faults w) as [|[] [|[] f]] eqn:F; simpl;
    destruct (negb (is_some (assoc t (pages w))) || flag); simpl;
    rewrite ?F; reflexivity.
Qed.



Lemma create_page_existing self t body c w :
  assoc t (pages w) = Some c ->
  let o := create_page self t body false w in
  res o = Ok tt /\ pages (world o) = pages w /\ saves (evs o) = [].
Proof.
  intros E; unfold create_page; destruct (String.eqb t EmptyString).
  - repeat split.
  - run; destruct (faults w) as [|[] f] eqn:F; simpl;
      rewrite ?E; simpl; repeat split.
Qed.

(** ** create_pages *)

Lemma create_pages_body_titled self r t w :
  title_cell r = Some t ->
  create_pages_body self r w =
    create_page self t (proposal_page_body self (key r)) false w.
Proof. intros E; unfold create_pages_body; rewrite E; reflexivity. Qed.

Lemma create_pages_body_untitled self r w :
  title_cell r = None ->
  create_pages_body self r w =
    Build_Outcome (Raise (PyException title_adder_message)) w [].
Proof. intros E; unfold create_pages_body; rewrite E; reflexivity. Qed.

Lemma create_pages_body_returns self r w :
  title_cell r <> None -> res (create_pages_body self r w) = Ok tt.
Proof.
  intros H; destruct (title_cell r) as [t|] eqn:E; [|congruence].
  rewrite (create_pages_body_titled _ _ _ _ E); apply create_page_returns.
Qed.

Lemma create_pages_body_fetched self r w :
  title_cell r <> None ->
  titles_fetched (evs (create_pages_body self r w)) = nonempty_titles [r].
Proof.
  intros H; destruct (title_cell r) as [t|] eqn:E; [|congruence].
  rewrite (create_pages_body_titled _ _ _ _ E), create_page_fetched.
  unfold nonempty_titles; simpl; rewrite E, app_nil_r; reflexivity.
Qed.


Lemma titled_prefix_titled l :
  Forall (fun r => title_cell r <> None) (titled_prefix l).
Proof.
  induction l as [|r l IH]; simpl; [constructor|].
  destruct (title_cell r) eqn:E; constructor; auto; congruence.
Qed.

Lemma titled_prefix_split l :
  (exists r, In r l /\ title_cell r = None) ->
  exists r post, l = titled_prefix l ++ r :: post /\ title_cell r = None.
Proof.
  induction l as [|x l IH]; intros (r & Hin & Hr); [contradiction|].
  simpl; destruct (title_cell x) eqn:E.
  - destruct Hin as [->|Hin]; [congruence|].
    destruct IH as (r' & post & El & Hr'); [eauto|].
    exists r', post; split; [simpl; congruence | exact Hr'].
  - exists x, l; auto.
Qed.

Lemma titled_prefix_all l :
  Forall (fun r => title_cell r <> None) l -> titled_prefix l = l.
Proof.
  induction 1 as [|r l Hr _ IH]; simpl; auto.
  destruct (title_cell r); [congruence | contradiction].
Qed.

Lemma create_pages_titled_returns self l w :
  Forall (fun r => title_cell r <> None) l ->
  res (for_each (create_pages_body self) l w) = Ok tt.
Proof.
  intros H; apply for_each_all_ok; intros x w' Hin.
  apply create_pages_body_returns; revert x Hin; apply Forall_forall; exact H.
Qed.

Lemma create_pages_titled_fetched self l w :
  Forall (fun r => title_cell r <> None) l ->
  titles_fetched (evs (for_each (create_pages_body self) l w)) = nonempty_titles l.
Proof.
  intros H; unfold titles_fetched, nonempty_titles.
  apply for_each_observe; intros x w' Hin.
  - apply create_pages_body_returns; revert x Hin; apply Forall_forall; exact H.
  - rewrite Forall_forall in H.
    generalize (create_pages_body_fetched self x w' (H x Hin)).
    unfold titles_fetched, nonempty_titles; simpl; rewrite app_nil_r; auto.
Qed.

Lemma assoc_store_set t body l : assoc t (store_set t body l) = Some body.
Proof.
  induction l as [|[t' b'] l IH]; simpl.
  - rewrite String.eqb_refl; reflexivity.
  - destruct (String.eqb t t') eqn:E; simpl; rewrite ?E, ?String.eqb_refl; auto.
Qed.

(** With [create_if_exists] set and the wiki answering, the body is
    written whatever the page held. *)
Lemma create_page_force_overwrites self t body w :
  t <> EmptyString -> faults w = [] ->
  let o := create_page self t body true w in
  saves (evs o) = [(t, body)] /\ assoc t (pages (world o)) = Some body.
Proof.
  intros Ht F; unfold create_page.
  destruct (String.eqb t EmptyString) eqn:E; [apply String.eqb_eq in E; contradiction|].
  run; rewrite F; simpl; rewrite orb_true_r, F; simpl.
  split; [reflexivity | apply assoc_store_set].
Qed.

(** ** Page creation *)

(** C3. When the page already exists and [create_if_exists] is not set,
    [create_page] saves nothing and the remote pages stay as they were,
    under every fault schedule; so does a second call with the same
    title and body. *)
Theorem create_page_existing_untouched self t body c w :
  assoc t (pages w) = Some c ->
  let o1 := create_page self t body false w in
  let o2 := create_page self t body false (world o1) in
  (saves (evs o1) = [] /\ pages (world o1) = pages w) /\
  (saves (evs o2) = [] /\ pages (world o2) = pages w).
Proof.
  intros E o1 o2.
  destruct (create_page_existing self t body c w E) as (_ & P1 & S1).
  fold o1 in P1, S1.
  assert (E1 : assoc t (pages (world o1)) = Some c) by (rewrite P1; exact E).
  destruct (create_page_existing self t body c (world o1) E1) as (_ & P2 & S2).
  fold o2 in P2, S2.
  repeat split; congruence.
Qed.

Lemma create_page_existing_untouched_witness :
  let w := Sample.populated in
  let o1 := create_page Sample.ses "Page One" "new body" false w in
  let o2 := create_page Sample.ses "Page One" "new body" false (world o1) in
  (saves (evs o1) = [] /\ pages (world o1) = pages w) /\
  (saves (evs o2) = [] /\ pages (world o2) = pages w).
Proof.
  apply (create_page_existing_untouched Sample.ses "Page One" "new body" "one").
  reflexivity.
Defined.

(** C2, as stated, fails: with a titled record ahead of the untitled
    one, the page of the titled record is fetched and saved before the
    exception. *)
Lemma strict_title_precondition_counterexample :
  ~ strict_title_precondition Sample.ses
      (Sample.with_proposals [Sample.p1; Sample.untitled]) Sample.fresh.
Proof.
  intros H.
  destruct H as (_ & F & _).
  - exists Sample.untitled; split; [right; left; reflexivity | reflexivity].
  - vm_compute in F; discriminate F.
Qed.

(** C2, amended. When some record has no title, [create_pages] raises
    the title-adder exception; the records ahead of the first untitled
    one are processed as usual, and nothing is issued for that record or
    any record after it. *)
Theorem create_pages_untitled_aborts self comp w :
  (exists r, In r (ordered_proposals comp) /\ title_cell r = None) ->
  let o := create_pages self comp w in
  let ahead := titled_prefix (ordered_proposals comp) in
  res o = Raise (PyException title_adder_message) /\
  evs o = evs (for_each (create_pages_body self) ahead w) /\
  titles_fetched (evs o) = nonempty_titles ahead.
Proof.
  intros H o ahead.
  destruct (titled_prefix_split _ H) as (r & post & El & Hr).
  pose proof (titled_prefix_titled (ordered_proposals comp)) as Hp.
  fold ahead in El, Hp.
  pose proof (create_pages_titled_returns self ahead w Hp) as Hok.
  assert (Eo : o = Build_Outcome (Raise (PyException title_adder_message))
                 (world (for_each (create_pages_body self) ahead w))
                 (evs (for_each (create_pages_body self) ahead w))).
  { assert (Hx : res (create_pages_body self r
                         (world (for_each (create_pages_body self) ahead w)))
                  = Raise (PyException title_adder_message))
      by (rewrite (create_pages_body_untitled _ _ _ Hr); reflexivity).
    unfold o, create_pages; rewrite El.
    rewrite (for_each_stop _ _ _ _ _ _ Hok Hx); simpl.
    rewrite (create_pages_body_untitled _ _ _ Hr); simpl.
    rewrite app_nil_r; reflexivity. }
  rewrite Eo; simpl; repeat split.
  apply create_pages_titled_fetched; exact Hp.
Qed.

Lemma create_pages_untitled_aborts_witness :
  let comp := Sample.with_proposals [Sample.p1; Sample.untitled; Sample.p2] in
  let o := create_pages Sample.ses comp Sample.fresh in
  res o = Raise (PyException title_adder_message) /\
  titles_fetched (evs o) = ["Page One"].
Proof.
  intros comp o.
  destruct (create_pages_untitled_aborts Sample.ses comp Sample.fresh) as (R & _ & T).
  - exists Sample.untitled; split; [right; left; reflexivity | reflexivity].
  - split; [exact R | exact T].
Defined.



(** C10. A record whose title is the empty string raises nothing and
    issues nothing: the run is the run of the dataset without it.  Only
    a missing title raises the title-adder exception. *)
Theorem create_pages_skips_blank_title self comp r pre post w :
  ordered_proposals comp = pre ++ r :: post ->
  title_cell r = Some EmptyString ->
  create_pages_body self r w = Build_Outcome (Ok tt) w [] /\
  create_pages self comp w = for_each (create_pages_body self) (pre ++ post) w /\
  (forall r' w', res (create_pages_body self r' w')
                   = Raise (PyException title_adder_message)
                 <-> title_cell r' = None).
Proof.
  intros El Er.
  assert (Hr : forall w0, create_pages_body self r w0 = Build_Outcome (Ok tt) w0 []).
  { intros w0; rewrite (create_pages_body_titled _ _ _ _ Er); reflexivity. }
  split; [apply Hr | split].
  - unfold create_pages; rewrite El, !for_each_app; simpl.
    unfold bind at 1 3.
    destruct (res (for_each (create_pages_body self) pre w)); [|reflexivity].
    unfold bind; rewrite Hr; simpl.
    reflexivity.
  - intros r' w'; split.
    + intros HR; destruct (title_cell r') eqn:E; [|reflexivity].
      rewrite create_pages_body_returns in HR by congruence; discriminate.
    + intros E; rewrite (create_pages_body_untitled _ _ _ E); reflexivity.
Qed.

Lemma create_pages_skips_blank_title_witness :
  create_pages Sample.ses
      (Sample.with_proposals [Sample.p1; Sample.blank; Sample.p2]) Sample.fresh
    = for_each (create_pages_body Sample.ses) [Sample.p1; Sample.p2] Sample.fresh.
Proof.
  apply (create_pages_skips_blank_title Sample.ses
           (Sample.with_proposals [Sample.p1; Sample.blank; Sample.p2])
           Sample.blank [Sample.p1] [Sample.p2] Sample.fresh);
    reflexivity.
Defined.

(** ** The audit *)

Lemma py_in_spec t l : py_in t l = true <-> In (Some t) l.
Proof.
  unfold py_in; rewrite existsb_exists; split.
  - intros ([t'|] & Hin & E); [|discriminate].
    apply String.eqb_eq in E; subst; exact Hin.
  - intros Hin; exists (Some t); split; [exact Hin | apply String.eqb_refl].
Qed.

Lemma printed_lines l : printed (map Printed l) = l.
Proof. induction l as [|x l IH]; simpl; congruence. Qed.

Lemma audit_loop added l w :
  for_each
    (fun page_title =>
       if negb (py_in page_title added) then print page_title else ret tt) l w
  = Build_Outcome (Ok tt) w
      (map Printed (filter (fun t => negb (py_in t added)) l)).
Proof.
  induction l as [|t l IH]; simpl; [reflexivity|].
  unfold bind; destruct (negb (py_in t added)); simpl; rewrite IH; reflexivity.
Qed.

Lemma sanity_check_wiki_run self comp w :
  hd false (faults w) = false ->
  sanity_check_wiki self comp w =
    Build_Outcome (Ok tt) (with_faults (tl (faults w)) w)
      (Did AllPages :: Printed audit_header ::
         map Printed
           (filter (fun t => negb (py_in t (map title_cell (ordered_proposals comp))))
                   (map fst (pages w)))).
Proof.
  intros H; unfold sanity_check_wiki.
  cbv beta iota zeta delta [bind allpages_names remote get_world ret print].
  destruct (faults w) as [|[] f] eqn:F; simpl in *; try discriminate;
    rewrite audit_loop; simpl; try reflexivity.
  unfold with_faults; rewrite <- F; destruct w; reflexivity.
Qed.

(** C4. When the listing is obtained, the audit prints its header and
    then exactly the titles of the listing that are not among the title
    cells of the records, in listing order; it prints no title when
    every listed page is expected; and it leaves the pages alone. *)
Theorem sanity_check_reports_strays self comp w :
  hd false (faults w) = false ->
  let o := sanity_check_wiki self comp w in
  let listing := map fst (pages w) in
  let expected := map title_cell (ordered_proposals comp) in
  exists report,
    printed (evs o) = audit_header :: report /\
    report = filter (fun t => negb (py_in t expected)) listing /\
    (forall t, In t report <-> In t listing /\ ~ In (Some t) expected) /\
    ((forall t, In t listing -> In (Some t) expected) -> report = []) /\
    pages (world o) = pages w.
Proof.
  intros H o listing expected.
  exists (filter (fun t => negb (py_in t expected)) listing).
  assert (Hin : forall t, In t (filter (fun t => negb (py_in t expected)) listing)
                          <-> In t listing /\ ~ In (Some t) expected).
  { intros t; rewrite filter_In, negb_true_iff, <- not_true_iff_false, py_in_spec.
    reflexivity. }
  unfold o; rewrite (sanity_check_wiki_run _ _ _ H); simpl.
  rewrite printed_lines.
  split; [reflexivity|]; split; [reflexivity|]; split; [exact Hin|].
  split; [|reflexivity].
  intros Hall.
  destruct (filter (fun t => negb (py_in t expected)) listing) as [|t r] eqn:E;
    [reflexivity|].
  assert (Ht : In t (t :: r)) by (left; reflexivity).
  apply Hin in Ht; destruct Ht as [H1 H2]; elim H2; auto.
Qed.

Lemma sanity_check_reports_strays_witness :
  printed (evs (sanity_check_wiki Sample.ses Sample.comp Sample.populated))
    = [audit_header; "Stray"].
Proof.
  destruct (sanity_check_reports_strays Sample.ses Sample.comp Sample.populated)
    as (report & E & R & _).
  - reflexivity.
  - rewrite E, R; reflexivity.
Defined.

(** ** upload_toc *)

Lemma upload_toc_raw_calls self toc w :
  raw_calls (evs (upload_toc self toc w)) = [upload_toc_data self toc].
Proof.
  unfold upload_toc; run.
  destruct (faults w) as [|[] [|[] [|[] f]]] eqn:F; simpl; rewrite ?F; simpl;
    destruct (negb (is_some (assoc (toc_name toc) (pages w)))); simpl;
    rewrite ?F; reflexivity.
Qed.

(** C5. [upload_toc] issues one raw call.  When the TOC is raw its
    [raw_toc] parameter is the string [true]; otherwise the value is
    Python's [None], never a false value, and the parameter is not among
    the fields put on the wire. *)
Theorem upload_toc_raw_flag self toc w :
  let data := upload_toc_data self toc in
  raw_calls (evs (upload_toc self toc w)) = [data] /\
  if raw toc
  then assoc "raw_toc" data = Some (Some "true") /\
       assoc "raw_toc" (transmitted data) = Some "true"
  else assoc "raw_toc" data = Some None /\
       assoc "raw_toc" (transmitted data) = None /\
       ~ In "raw_toc" (map fst (transmitted data)).
Proof.
  split; [apply upload_toc_raw_calls|].
  unfold upload_toc_data; destruct (raw toc); simpl; repeat split.
  intros [H|[H|[H|[H|[]]]]]; discriminate H.
Qed.

(** ** What each method can emit *)

Lemma emits_for_each_in {A} (P : event -> Prop) (f : A -> M unit) l :
  (forall x, In x l -> emits P (f x)) -> emits P (for_each f l).
Proof.
  induction l as [|x l IH]; intros Hf; simpl.
  - apply emits_ret.
  - apply emits_bind; [apply Hf; left; reflexivity|].
    intros _; apply IH; intros y Hy; apply Hf; right; exact Hy.
Qed.

Lemma emits_upload_toc (P : event -> Prop) self toc :
  both P (RawCall "api" (upload_toc_data self toc)
            [("template", template_file toc); ("json", grouped_json toc)]) ->
  both P (PageGet (toc_name toc)) ->
  both P (PageSave (toc_name toc) (toc_page_body self (toc_name toc))) ->
  emits P (upload_toc self toc).
Proof.
  intros [R1 R2] [G1 G2] [S1 S2] w; unfold upload_toc; run.
  destruct (faults w) as [|[] [|[] [|[] f]]] eqn:F; simpl; rewrite ?F; simpl;
    destruct (negb (is_some (assoc (toc_name toc) (pages w)))); simpl;
    rewrite ?F; simpl; repeat constructor; assumption.
Qed.

Lemma emits_create_page (P : event -> Prop) self t body flag :
  both P (PageGet t) -> both P (PageSave t body) ->
  P (Printed (failure_line t)) ->
  emits P (create_page self t body flag).
Proof.
  intros [G1 G2] [S1 S2] L w; unfold create_page, failure_line in *.
  destruct (String.eqb t EmptyString); [constructor|].
  run; destruct (faults w) as [|[] [|[] f]] eqn:F; simpl;
    destruct (negb (is_some (assoc t (pages w))) || flag); simpl;
    rewrite ?F; simpl; repeat constructor; assumption.
Qed.

Lemma emits_create_pages (P : event -> Prop) self comp :
  (forall t, both P (PageGet t)) -> (forall t b, both P (PageSave t b)) ->
  (forall s, P (Printed s)) ->
  emits P (create_pages self comp).
Proof.
  intros G S L; unfold create_pages; apply emits_for_each_in; intros r _.
  unfold create_pages_body; destruct (title_cell r).
  - apply emits_create_page; auto.
  - apply emits_raise.
Qed.

Lemma emits_sanity_check_wiki (P : event -> Prop) self comp :
  both P AllPages -> (forall s, P (Printed s)) ->
  emits P (sanity_check_wiki self comp).
Proof.
  intros [A1 A2] L; unfold sanity_check_wiki, allpages_names.
  apply emits_bind.
  - apply emits_bind; [apply emits_remote; assumption|].
    intros _; apply emits_bind; [apply emits_get_world|].
    intros w'; apply emits_ret.
  - intros l; apply emits_bind; [apply emits_print; apply L|].
    intros _; apply emits_for_each_in; intros t _.
    apply emits_if; [apply emits_print; apply L | apply emits_ret].
Qed.

Lemma emits_upload_attachments (P : event -> Prop) self atts :
  (forall s, P (Printed s)) -> (forall p, both P (FileRead p)) ->
  (forall a c, both P (RawCall "api" (upload_attachment_data self a)
                         [("attachment", c)])) ->
  emits P (upload_attachments self atts).
Proof.
  intros L R U; unfold upload_attachments.
  apply emits_if; [apply emits_ret|].
  apply emits_for_each_in; intros a _; unfold upload_attachments_body.
  apply emits_bind; [apply emits_print; apply L|].
  intros _; apply emits_bind; [apply emits_open_read; apply R|].
  intros c; apply emits_remote; apply U.
Qed.

(** The part of [upload_sheet] ahead of the audit. *)
Lemma emits_upload_sheet (P : event -> Prop) self comp :
  both P (RawCall "api" (upload_sheet_data self comp) [("data_file", csv comp)]) ->
  (forall toc, both P (RawCall "api" (upload_toc_data self toc)
                         [("template", template_file toc);
                          ("json", grouped_json toc)])) ->
  (forall t, both P (PageGet t)) -> (forall t b, both P (PageSave t b)) ->
  both P AllPages -> (forall s, P (Printed s)) ->
  emits P (upload_sheet self comp).
Proof.
  intros S T G V A L; unfold upload_sheet.
  apply emits_bind; [apply emits_remote; apply S|].
  intros _; apply emits_bind.
  { apply emits_for_each_in; intros toc _; apply emits_upload_toc; auto. }
  intros _; apply emits_bind.
  { apply emits_if; [apply emits_create_pages; auto | apply emits_ret]. }
  intros _; apply emits_sanity_check_wiki; auto.
Qed.

Lemma observe_bind {A B C} (obs : event -> list C) (m : M A) (k : A -> M B) w :
  flat_map obs (evs (bind m k w)) =
    flat_map obs (evs (m w)) ++
    match res (m w) with
    | Ok a => flat_map obs (evs (k a (world (m w))))
    | Raise _ => []
    end.
Proof.
  unfold bind; destruct (res (m w)); simpl.
  - apply flat_map_app.
  - rewrite app_nil_r; reflexivity.
Qed.

Lemma observe_nothing {C} (obs : event -> list C) l :
  Forall (fun e => obs e = []) l -> flat_map obs l = [].
Proof. induction 1 as [|e l He _ IH]; simpl; [|rewrite He, IH]; reflexivity. Qed.

Lemma prefix_nil {A} (l : list A) : prefix [] l.
Proof. exists l; reflexivity. Qed.

Lemma prefix_refl {A} (l : list A) : prefix l l.
Proof. exists []; symmetry; apply app_nil_r. Qed.

(** ** Data-only mode *)

Lemma saves_Forall (Q : string * string -> Prop) l :
  Forall (fun e => forall t b, issued e = Some (PageSave t b) -> Q (t, b)) l ->
  Forall Q (saves l).
Proof.
  induction 1 as [|e l He _ IH]; [constructor|].
  change (Forall Q (save_of e ++ saves l)); apply Forall_app; split; [|exact IH].
  unfold save_of; destruct (issued e) as [[]|] eqn:E; repeat constructor; auto.
Qed.

Lemma upload_sheet_first self comp w :
  exists e rest,
    evs (upload_sheet self comp w) = e :: rest /\
    issued e = Some (RawCall "api" (upload_sheet_data self comp)
                       [("data_file", csv comp)]).
Proof.
  unfold upload_sheet, raw_call, remote; unfold bind at 1.
  destruct (faults w) as [|[] f]; simpl; eauto.
Qed.


Section Observe.
Context {C : Type} (obs : event -> list C).

Lemma silent_emits {A} (m : M A) :
  emits (fun e => obs e = []) m -> silent obs m.
Proof. intros H w; apply observe_nothing, H. Qed.

Lemma silent_bind {A B} (m : M A) (k : A -> M B) :
  silent obs m -> (forall a, silent obs (k a)) -> silent obs (bind m k).
Proof.
  intros Hm Hk w; rewrite observe_bind, Hm; simpl.
  destruct (res (m w)); [apply Hk | reflexivity].
Qed.

Lemma shows_after_silent {A B} L (m : M A) (k : A -> M B) :
  silent obs m -> (forall a, shows obs L (k a)) -> shows obs L (bind m k).
Proof.
  intros Hm Hk w.
  pose proof (observe_bind obs m k w) as Eb; rewrite (Hm w) in Eb; simpl in Eb.
  destruct (res (m w)) as [a|e] eqn:E; rewrite Eb.
  - destruct (Hk a (world (m w))) as [H1 H2]; split; [exact H1|].
    intros b Hb; rewrite (bind_ok _ _ _ _ E) in Hb; simpl in Hb; eauto.
  - split; [apply prefix_nil|].
    intros b Hb; rewrite (bind_raise _ _ _ _ E) in Hb; discriminate.
Qed.

Lemma shows_then_silent {A B} L (m : M A) (k : A -> M B) :
  shows obs L m -> (forall a, silent obs (k a)) -> shows obs L (bind m k).
Proof.
  intros Hm Hk w.
  pose proof (observe_bind obs m k w) as Eb.
  destruct (Hm w) as [H1 H2].
  destruct (res (m w)) as [a|e] eqn:E; rewrite Eb.
  - split.
    + rewrite (Hk a (world (m w))), app_nil_r; exact H1.
    + intros _ _; rewrite (Hk a (world (m w))), app_nil_r; eauto.
  - split; [rewrite app_nil_r; exact H1|].
    intros b Hb; rewrite (bind_raise _ _ _ _ E) in Hb; discriminate.
Qed.

Lemma shows_for_each {A} (f : A -> M unit) (g : A -> C) l :
  (forall x, shows obs [g x] (f x)) -> shows obs (map g l) (for_each f l).
Proof.
  intros Hf; induction l as [|x l IH]; intros w.
  - split; [apply prefix_nil | reflexivity].
  - pose proof (observe_bind obs (f x) (fun _ => for_each f l) w) as Eb.
    change (for_each f (x :: l) w) with ((f x ;; for_each f l) w).
    destruct (Hf x w) as [H1 H2]; destruct (res (f x w)) as [[]|e] eqn:E;
      rewrite Eb.
    + destruct (IH (world (f x w))) as [[l3 E3] H4]; split.
      * rewrite (H2 tt eq_refl); exists l3; simpl; rewrite E3; reflexivity.
      * intros a Ha; rewrite (bind_ok _ _ _ _ E) in Ha; simpl in Ha.
        rewrite (H2 tt eq_refl), (H4 _ Ha); reflexivity.
    + split.
      * rewrite app_nil_r; destruct H1 as [l3 E3]; exists (l3 ++ map g l).
        simpl; rewrite app_assoc, <- E3; reflexivity.
      * intros a Ha; rewrite (bind_raise _ _ _ _ E) in Ha; discriminate.
Qed.
End Observe.

Lemma upload_toc_shows_fetch self toc :
  shows fetch_of [toc_name toc] (upload_toc self toc).
Proof.
  intros w; unfold upload_toc; run.
  destruct (faults w) as [|[] [|[] [|[] f]]] eqn:F; simpl; rewrite ?F; simpl;
    destruct (negb (is_some (assoc (toc_name toc) (pages w)))); simpl;
    rewrite ?F; simpl; split; intros;
    try discriminate; try reflexivity; try apply prefix_nil; try apply prefix_refl.
Qed.

Lemma upload_sheet_csv_only_fetched self comp :
  csv_only self = true ->
  shows fetch_of (map toc_name (tocs comp)) (upload_sheet self comp).
Proof.
  intros Hcsv; unfold upload_sheet; rewrite Hcsv; simpl negb; cbv iota.
  apply shows_after_silent.
  { apply silent_emits, emits_remote; reflexivity. }
  intros _; apply shows_then_silent.
  { apply shows_for_each; intros toc; apply upload_toc_shows_fetch. }
  intros _; apply silent_bind; [intros w; reflexivity|].
  intros _; apply silent_emits, emits_sanity_check_wiki; try split; reflexivity.
Qed.

Lemma upload_sheet_csv_only_saves self comp :
  csv_only self = true ->
  emits (fun e => forall t b, issued e = Some (PageSave t b) ->
                  toc_page_save self comp (t, b))
        (upload_sheet self comp).
Proof.
  intros Hcsv; unfold upload_sheet; rewrite Hcsv; simpl negb; cbv iota.
  apply emits_bind; [apply emits_remote; simpl; discriminate|].
  intros _; apply emits_bind.
  { apply emits_for_each_in; intros toc Hin.
    apply emits_upload_toc; split; simpl; try discriminate;
      intros t b E; injection E as <- <-; exists toc; auto. }
  intros _; apply emits_bind; [apply emits_ret|].
  intros _; apply emits_sanity_check_wiki; try split; simpl; discriminate.
Qed.

Lemma upload_sheet_uploads_no_attachment self comp :
  emits (fun e => is_attachment_upload e = false /\ is_file_read e = false)
        (upload_sheet self comp).
Proof.
  apply emits_upload_sheet; repeat split; reflexivity.
Qed.

(** C1, as stated, fails: in data-only mode the display page of a TOC
    that is not on the wiki yet is still saved. *)
Lemma data_only_suppression_counterexample :
  ~ data_only_suppression Sample.ses_csv Sample.comp Sample.fresh.
Proof.
  intros H; destruct (H eq_refl) as (_ & T & _).
  apply (T Sample.regions); [left; reflexivity|].
  vm_compute; left; reflexivity.
Qed.

(** C1, amended. In data-only mode [upload_sheet] starts with the sheet
    upload, uploads no attachment and reads no file; the pages it
    fetches are the TOC display pages, one per TOC in order (all of them
    when it returns), and the only saves are of TOC display pages, which
    [upload_toc] creates when missing whatever the mode;
    [upload_attachments] issues nothing at all. *)
Theorem upload_sheet_data_only self comp w :
  csv_only self = true ->
  let o := upload_sheet self comp w in
  (exists e rest,
     evs o = e :: rest /\
     issued e = Some (RawCall "api" (upload_sheet_data self comp)
                        [("data_file", csv comp)])) /\
  Forall (fun e => is_attachment_upload e = false /\ is_file_read e = false) (evs o) /\
  prefix (titles_fetched (evs o)) (map toc_name (tocs comp)) /\
  (res o = Ok tt -> titles_fetched (evs o) = map toc_name (tocs comp)) /\
  Forall (toc_page_save self comp) (saves (evs o)) /\
  (forall atts, upload_attachments self atts w = Build_Outcome (Ok tt) w []).
Proof.
  intros Hcsv o.
  destruct (upload_sheet_csv_only_fetched self comp Hcsv w) as [Hp Hall].
  split; [apply upload_sheet_first|].
  split; [apply upload_sheet_uploads_no_attachment|].
  split; [exact Hp|].
  split; [apply (Hall tt)|].
  split.
  - apply saves_Forall, (upload_sheet_csv_only_saves self comp Hcsv w).
  - intros atts; unfold upload_attachments; rewrite Hcsv; reflexivity.
Qed.

Lemma upload_sheet_data_only_witness :
  let o := upload_sheet Sample.ses_csv Sample.comp Sample.fresh in
  titles_fetched (evs o) = ["Regions"] /\
  Forall (toc_page_save Sample.ses_csv Sample.comp) (saves (evs o)) /\
  upload_attachments Sample.ses_csv [Sample.doc_pdf] Sample.fresh
    = Build_Outcome (Ok tt) Sample.fresh [].
Proof.
  destruct (upload_sheet_data_only Sample.ses_csv Sample.comp Sample.fresh eq_refl)
    as (_ & _ & _ & T & S & U).
  split; [apply T; reflexivity | split; [exact S | apply U]].
Defined.

(** ** Where the audit sits *)







(** ** upload_attachments *)

Lemma prefix_app_l {A} (l l1 l2 : list A) :
  prefix l1 l2 -> prefix (l ++ l1) (l ++ l2).
Proof. intros [l3 E]; exists l3; rewrite E, app_assoc; reflexivity. Qed.

Lemma upload_attachments_body_missing self a w :
  assoc (path a) (local_files w) = None ->
  upload_attachments_body self a w =
    Build_Outcome (Raise IOError) w
      [Printed ("Uploading " ++ file a); Raised (FileRead (path a))].
Proof.
  intros E; unfold upload_attachments_body; run; rewrite E; reflexivity.
Qed.

Lemma upload_attachments_body_fault self a c f w :
  assoc (path a) (local_files w) = Some c ->
  faults w = true :: f ->
  upload_attachments_body self a w =
    Build_Outcome (Raise TransportError) (with_faults f w)
      [Printed ("Uploading " ++ file a); Did (FileRead (path a));
       Raised (RawCall "api" (upload_attachment_data self a) [("attachment", c)])].
Proof.
  intros E F; unfold upload_attachments_body; run; rewrite E; simpl.
  rewrite F; reflexivity.
Qed.

Lemma upload_attachments_body_read self a w :
  files_read (evs (upload_attachments_body self a w)) = [path a].
Proof.
  unfold upload_attachments_body; run.
  destruct (assoc (path a) (local_files w)); simpl; [|reflexivity].
  destruct (faults w) as [|[] f]; reflexivity.
Qed.

Lemma upload_attachments_body_shows_read self a :
  shows read_of [path a] (upload_attachments_body self a).
Proof.
  intros w; fold (files_read (evs (upload_attachments_body self a w))).
  rewrite upload_attachments_body_read; split; [apply prefix_refl | reflexivity].
Qed.

Lemma upload_attachments_body_shows_call self a :
  shows raw_call_of [upload_attachment_data self a] (upload_attachments_body self a).
Proof.
  intros w; unfold upload_attachments_body; run.
  destruct (assoc (path a) (local_files w)); simpl.
  - destruct (faults w) as [|[] f]; simpl; split; intros;
      try reflexivity; try apply prefix_refl.
  - split; [apply prefix_nil | discriminate].
Qed.

(** The loop stops at the attachment whose iteration raises. *)
Lemma upload_attachments_stops_at self pre a post w e :
  csv_only self = false ->
  res (upload_attachments self pre w) = Ok tt ->
  res (upload_attachments_body self a (world (upload_attachments self pre w)))
    = Raise e ->
  let o := upload_attachments self (pre ++ a :: post) w in
  let oa := upload_attachments_body self a (world (upload_attachments self pre w)) in
  res o = Raise e /\
  evs o = evs (upload_attachments self pre w) ++ evs oa /\
  files_read (evs o) = map path (pre ++ [a]) /\
  prefix (raw_calls (evs o)) (map (upload_attachment_data self) (pre ++ [a])) /\
  (forall atts w',
     prefix (files_read (evs (upload_attachments self atts w'))) (map path atts) /\
     prefix (raw_calls (evs (upload_attachments self atts w')))
            (map (upload_attachment_data self) atts)).
Proof.
  intros Hcsv Hpre Ha o oa.
  assert (Ua : forall atts w', upload_attachments self atts w'
                 = for_each (upload_attachments_body self) atts w')
    by (intros; unfold upload_attachments; rewrite Hcsv; reflexivity).
  unfold o, oa; clear o oa; rewrite Ua in Hpre, Ha; rewrite !Ua.
  remember (upload_attachments_body self a
              (world (for_each (upload_attachments_body self) pre w))) as oa eqn:Eoa.
  set (o := for_each (upload_attachments_body self) (pre ++ a :: post) w).
  assert (Eo : o = Build_Outcome (Raise e) (world oa)
                 (evs (for_each (upload_attachments_body self) pre w) ++ evs oa)).
  { rewrite Eoa in Ha |- *.
    unfold o; rewrite (for_each_stop _ _ _ _ _ _ Hpre Ha); reflexivity. }
  assert (Sr : forall atts, shows read_of (map path atts)
                 (for_each (upload_attachments_body self) atts)).
  { intros atts; apply shows_for_each, upload_attachments_body_shows_read. }
  assert (Sc : forall atts, shows raw_call_of (map (upload_attachment_data self) atts)
                 (for_each (upload_attachments_body self) atts)).
  { intros atts; apply shows_for_each, upload_attachments_body_shows_call. }
  rewrite Eo; simpl; repeat split.
  - unfold files_read; rewrite flat_map_app, map_app.
    rewrite (proj2 (Sr pre w) tt Hpre).
    pose proof (upload_attachments_body_read self a
                  (world (for_each (upload_attachments_body self) pre w))) as Hr.
    unfold files_read in Hr; rewrite <- Eoa in Hr; rewrite Hr; reflexivity.
  - unfold raw_calls; rewrite flat_map_app, map_app.
    rewrite (proj2 (Sc pre w) tt Hpre).
    rewrite Eoa; apply prefix_app_l, upload_attachments_body_shows_call.
  - rewrite Ua; apply Sr.
  - rewrite Ua; apply Sc.
Qed.

Lemma upload_attachments_body_files self a w :
  local_files (world (upload_attachments_body self a w)) = local_files w.
Proof.
  unfold upload_attachments_body; run.
  destruct (assoc (path a) (local_files w)); simpl; [|reflexivity].
  destruct (faults w) as [|[] f]; reflexivity.
Qed.

Lemma upload_attachments_files self atts w :
  local_files (world (upload_attachments self atts w)) = local_files w.
Proof.
  unfold upload_attachments; destruct (csv_only self); [reflexivity|].
  revert w; induction atts as [|a atts IH]; intros w; [reflexivity|].
  simpl; unfold bind.
  pose proof (upload_attachments_body_files self a w) as Hb.
  destruct (res (upload_attachments_body self a w)); simpl; [rewrite IH|]; exact Hb.
Qed.

(** C8. Attachments are read and uploaded in list order.  When the
    attachments before [a] went through and then the file of [a] is
    missing, or its file is there and the transport fails on its
    upload, the exception ([IOError], resp. the transport error) is not
    caught: it is the result of [upload_attachments]; the run ends on
    the failed read, resp. the failed upload, of [a], and no read or
    upload is issued for any attachment after it. *)
Theorem upload_attachments_fail_fast self pre a post w e :
  csv_only self = false ->
  res (upload_attachments self pre w) = Ok tt ->
  let w1 := world (upload_attachments self pre w) in
  (assoc (path a) (local_files w) = None /\ e = IOError) \/
  (assoc (path a) (local_files w) <> None /\
   hd false (faults w1) = true /\ e = TransportError) ->
  let o := upload_attachments self (pre ++ a :: post) w in
  let oa := upload_attachments_body self a w1 in
  res o = Raise e /\
  evs o = evs (upload_attachments self pre w) ++ evs oa /\
  evs oa =
    Printed ("Uploading " ++ file a) ::
    match assoc (path a) (local_files w) with
    | None => [Raised (FileRead (path a))]
    | Some c =>
        [Did (FileRead (path a));
         Raised (RawCall "api" (upload_attachment_data self a) [("attachment", c)])]
    end /\
  files_read (evs o) = map path (pre ++ [a]) /\
  raw_calls (evs o) =
    map (upload_attachment_data self) pre ++
    (if is_some (assoc (path a) (local_files w))
     then [upload_attachment_data self a] else []) /\
  prefix (raw_calls (evs o)) (map (upload_attachment_data self) (pre ++ [a])) /\
  (forall atts w',
     prefix (files_read (evs (upload_attachments self atts w'))) (map path atts) /\
     prefix (raw_calls (evs (upload_attachments self atts w')))
            (map (upload_attachment_data self) atts)).
Proof.
  intros Hcsv Hpre w1 Hcause o oa.
  pose proof (upload_attachments_files self pre w) as Hfiles; fold w1 in Hfiles.
  assert (Hoa : res oa = Raise e /\
                evs oa =
                  Printed ("Uploading " ++ file a) ::
                  match assoc (path a) (local_files w) with
                  | None => [Raised (FileRead (path a))]
                  | Some c =>
                      [Did (FileRead (path a));
                       Raised (RawCall "api" (upload_attachment_data self a)
                                 [("attachment", c)])]
                  end).
  { unfold oa; destruct Hcause as [[Hnone ->]|(Hsome & Hf & ->)].
    - rewrite upload_attachments_body_missing by (rewrite Hfiles; exact Hnone).
      rewrite Hnone; split; reflexivity.
    - destruct (assoc (path a) (local_files w)) as [c|] eqn:Ec; [|congruence].
      destruct (faults w1) as [|[] f] eqn:Ef; try discriminate Hf.
      rewrite (upload_attachments_body_fault self a c f w1)
        by (rewrite ?Hfiles; assumption).
      split; reflexivity. }
  destruct Hoa as [Ra Ea].
  destruct (upload_attachments_stops_at self pre a post w e Hcsv Hpre Ra)
    as (Ro & Eo & Fr & Pc & G).
  fold w1 in Eo; fold oa in Eo; fold o in Ro, Eo, Fr, Pc.
  split; [exact Ro|]; split; [exact Eo|]; split; [exact Ea|]; split; [exact Fr|].
  split; [|split; [exact Pc | exact G]].
  rewrite Eo; unfold raw_calls; rewrite flat_map_app; f_equal.
  - assert (Sc : shows raw_call_of (map (upload_attachment_data self) pre)
                   (upload_attachments self pre)).
    { unfold upload_attachments; rewrite Hcsv.
      apply shows_for_each, upload_attachments_body_shows_call. }
    apply (proj2 (Sc w) tt Hpre).
  - rewrite Ea; destruct (assoc (path a) (local_files w)); reflexivity.
Qed.

(** Both causes: a missing file, then a transport fault on the upload. *)
Lemma upload_attachments_fail_fast_witness :
  (let o := upload_attachments Sample.ses
              [Sample.doc_pdf; Sample.lost_pdf; Sample.doc_pdf] Sample.fresh in
   res o = Raise IOError /\
   files_read (evs o) = ["/data/doc.pdf"; "/data/lost.pdf"] /\
   raw_calls (evs o) = [upload_attachment_data Sample.ses Sample.doc_pdf]) /\
  (let o := upload_attachments Sample.ses
              [Sample.doc_pdf; Sample.doc_pdf; Sample.doc_pdf]
              (Sample.faulty [false; true]) in
   res o = Raise TransportError /\
   files_read (evs o) = ["/data/doc.pdf"; "/data/doc.pdf"] /\
   raw_calls (evs o) = [upload_attachment_data Sample.ses Sample.doc_pdf;
                        upload_attachment_data Sample.ses Sample.doc_pdf]).
Proof.
  split.
  - destruct (upload_attachments_fail_fast Sample.ses [Sample.doc_pdf]
                Sample.lost_pdf [Sample.doc_pdf] Sample.fresh IOError
                eq_refl eq_refl (or_introl (conj eq_refl eq_refl)))
      as (R & _ & _ & F & C & _).
    split; [exact R | split; [exact F | exact C]].
  - destruct (upload_attachments_fail_fast Sample.ses [Sample.doc_pdf]
                Sample.doc_pdf [Sample.doc_pdf] (Sample.faulty [false; true])
                TransportError eq_refl eq_refl)
      as (R & _ & _ & F & C & _).
    + right; split; [discriminate | split; reflexivity].
    + split; [exact R | split; [exact F | exact C]].
Defined.

(** ** Failures around the TOC display page *)

Lemma upload_toc_fetch_fault self toc f w :
  faults w = false :: true :: f ->
  upload_toc self toc w =
    Build_Outcome (Raise TransportError) (with_faults f w)
      [Did (RawCall "api" (upload_toc_data self toc)
              [("template", template_file toc); ("json", grouped_json toc)]);
       Raised (PageGet (toc_name toc))].
Proof. intros F; unfold upload_toc; run; rewrite F; reflexivity. Qed.

Lemma upload_toc_save_fault self toc f w :
  faults w = false :: false :: true :: f ->
  assoc (toc_name toc) (pages w) = None ->
  upload_toc self toc w =
    Build_Outcome (Raise TransportError) (with_faults f w)
      [Did (RawCall "api" (upload_toc_data self toc)
              [("template", template_file toc); ("json", grouped_json toc)]);
       Did (PageGet (toc_name toc));
       Raised (PageSave (toc_name toc) (toc_page_body self (toc_name toc)))].
Proof.
  intros F E; unfold upload_toc; run; rewrite F; simpl; rewrite E; reflexivity.
Qed.

Lemma upload_sheet_stops_at_toc self comp pre toc more w e :
  tocs comp = pre ++ toc :: more ->
  let head := (raw_call "api" (upload_sheet_data self comp) [("data_file", csv comp)] ;;
               for_each (upload_toc self) pre) w in
  res head = Ok tt ->
  res (upload_toc self toc (world head)) = Raise e ->
  res (upload_sheet self comp w) = Raise e /\
  evs (upload_sheet self comp w) = evs head ++ evs (upload_toc self toc (world head)).
Proof.
  intros El head Hh Ht.
  destruct (bind_res_ok _ _ _ _ Hh) as ([] & Hs & Hp).
  assert (Eh : head = Build_Outcome
                 (res (for_each (upload_toc self) pre (world (raw_call "api" (upload_sheet_data self comp) [("data_file", csv comp)] w))))
                 (world (for_each (upload_toc self) pre (world (raw_call "api" (upload_sheet_data self comp) [("data_file", csv comp)] w))))
                 (evs (raw_call "api" (upload_sheet_data self comp) [("data_file", csv comp)] w)
                  ++ evs (for_each (upload_toc self) pre (world (raw_call "api" (upload_sheet_data self comp) [("data_file", csv comp)] w)))))
    by (unfold head; rewrite (bind_ok _ _ _ _ Hs); reflexivity).
  rewrite Eh in Ht |- *; simpl in Ht |- *.
  unfold upload_sheet; rewrite (bind_ok _ _ _ _ Hs); simpl.
  unfold bind at 1 3; rewrite El, (for_each_stop _ _ _ _ _ _ Hp Ht); simpl.
  rewrite app_assoc; split; reflexivity.
Qed.

(** C9. Nothing in [upload_toc] catches a failure of the fetch or of the
    save of the TOC display page: [upload_toc] raises, [upload_sheet]
    raises with it and issues nothing further, whereas [create_page]
    returns normally whatever fails. *)
Theorem upload_toc_page_failure_propagates self comp pre toc more w f :
  tocs comp = pre ++ toc :: more ->
  let head := (raw_call "api" (upload_sheet_data self comp) [("data_file", csv comp)] ;;
               for_each (upload_toc self) pre) w in
  res head = Ok tt ->
  faults (world head) = false :: true :: f \/
  (faults (world head) = false :: false :: true :: f /\
   assoc (toc_name toc) (pages (world head)) = None) ->
  let ot := upload_toc self toc (world head) in
  res ot = Raise TransportError /\
  (exists l c, evs ot = l ++ [Raised c] /\
     (c = PageGet (toc_name toc) \/
      c = PageSave (toc_name toc) (toc_page_body self (toc_name toc)))) /\
  res (upload_sheet self comp w) = Raise TransportError /\
  evs (upload_sheet self comp w) = evs head ++ evs ot /\
  (forall t body flag w', res (create_page self t body flag w') = Ok tt).
Proof.
  intros El head Hh Hf ot.
  assert (Ht : res ot = Raise TransportError /\
               exists l c, evs ot = l ++ [Raised c] /\
                 (c = PageGet (toc_name toc) \/
                  c = PageSave (toc_name toc) (toc_page_body self (toc_name toc)))).
  { unfold ot; destruct Hf as [F|[F E]].
    - rewrite (upload_toc_fetch_fault _ _ _ _ F); split; [reflexivity|].
      eexists [_], _; split; [reflexivity | left; reflexivity].
    - rewrite (upload_toc_save_fault _ _ _ _ F E); split; [reflexivity|].
      eexists [_; _], _; split; [reflexivity | right; reflexivity]. }
  destruct Ht as [Hr Hl].
  destruct (upload_sheet_stops_at_toc self comp pre toc more w TransportError El Hh Hr)
    as [R E].
  split; [exact Hr|]; split; [exact Hl|]; split; [exact R|]; split; [exact E|].
  intros; apply create_page_returns.
Qed.

Lemma upload_toc_page_failure_propagates_witness :
  let o := upload_sheet Sample.ses Sample.comp (Sample.faulty [false; false; false; true]) in
  res o = Raise TransportError /\
  titles_fetched (evs o) = ["Regions"] /\
  List.length (evs o) = 4.
Proof.
  destruct (upload_toc_page_failure_propagates Sample.ses Sample.comp []
              Sample.regions [] (Sample.faulty [false; false; false; true]) [])
    as (_ & _ & R & E & _).
  - reflexivity.
  - reflexivity.
  - right; split; reflexivity.
  - split; [exact R | rewrite E; split; reflexivity].
Defined.

(** ** Opening a session: the URL *)

Lemma split_sep_cases c s' :
  (starts_sep (String c s') = true /\
   exists rest, s' = String "/" (String "/" rest) /\ c = ":"%char /\
                split_sep (String c s') = EmptyString :: split_sep rest) \/
  (starts_sep (String c s') = false /\
   split_sep (String c s') =
     match split_sep s' with
     | h :: t => String c h :: t
     | [] => [String c EmptyString]
     end).
Proof.
  simpl.
  destruct (Ascii.eqb c ":") eqn:Ec; [|right; destruct s' as [|? [|? ?]]; auto].
  destruct s' as [|c1 [|c2 rest]]; [right; auto | right; auto |].
  destruct (Ascii.eqb c1 "/" && Ascii.eqb c2 "/") eqn:E12; [left | right; auto].
  apply andb_true_iff in E12; destruct E12 as [E1 E2].
  apply Ascii.eqb_eq in Ec, E1, E2; subst.
  split; [reflexivity | exists rest; auto].
Qed.

Lemma string_bounded_ind (P : string -> Prop) :
  (forall s, (forall s', String.length s' < String.length s -> P s') -> P s) ->
  forall s, P s.
Proof.
  intros H s.
  assert (G : forall n s, String.length s < n -> P s).
  { induction n as [|n IH]; intros s0 Hn; [lia|].
    apply H; intros s' Hs'; apply IH; lia. }
  apply (G (S (String.length s))); lia.
Qed.

Lemma split_sep_nonempty s : split_sep s <> [].
Proof.
  destruct s as [|c s']; [discriminate|].
  destruct (split_sep_cases c s') as [(_ & rest & _ & _ & E)|[_ E]]; rewrite E.
  - discriminate.
  - destruct (split_sep s'); discriminate.
Qed.

Lemma join_sep_cons_char c h t :
  join_sep (String c h :: t) = String c (join_sep (h :: t)).
Proof. destruct t; reflexivity. Qed.

Lemma join_split_sep s : join_sep (split_sep s) = s.
Proof.
  induction s as [s IH] using string_bounded_ind.
  destruct s as [|c s']; [reflexivity|].
  destruct (split_sep_cases c s') as [(_ & rest & -> & -> & E)|[_ E]]; rewrite E.
  - pose proof (split_sep_nonempty rest) as Hn.
    pose proof (IH rest) as Hr.
    destruct (split_sep rest) as [|x l]; [congruence|].
    change (join_sep (EmptyString :: x :: l))
      with (EmptyString ++ "://" ++ join_sep (x :: l))%string.
    rewrite Hr by (simpl; lia); reflexivity.
  - pose proof (split_sep_nonempty s') as Hn.
    pose proof (IH s') as Hr.
    destruct (split_sep s') as [|h t]; [congruence|].
    rewrite join_sep_cons_char, Hr by (simpl; lia); reflexivity.
Qed.

Lemma split_sep_plain s : contains_sep s = false -> split_sep s = [s].
Proof.
  induction s as [|c s' IH]; [reflexivity|].
  intros H; change (starts_sep (String c s') || contains_sep s' = false) in H.
  apply orb_false_iff in H; destruct H as [H1 H2].
  destruct (split_sep_cases c s') as [(E & _)|[_ E]]; [congruence|].
  rewrite E, (IH H2); reflexivity.
Qed.

(** The first piece of a split is where the string starts. *)
Lemma split_sep_head s :
  exists h t tail, split_sep s = h :: t /\ s = (h ++ tail)%string /\
                   (t = [] -> tail = EmptyString) /\
                   (t <> [] -> starts_sep tail = true).
Proof.
  induction s as [s IH] using string_bounded_ind.
  destruct s as [|c s']; [exists EmptyString, [], EmptyString; repeat split; congruence|].
  destruct (split_sep_cases c s') as [(S1 & rest & -> & -> & E)|[_ E]]; rewrite E.
  - exists EmptyString, (split_sep rest), (String ":" (String "/" (String "/" rest))).
    repeat split; auto.
    intros Hn; elim (split_sep_nonempty rest Hn).
  - destruct (IH s') as (h & t & tail & Es & Ec & Ht1 & Ht2); [simpl; lia|].
    rewrite Es; exists (String c h), t, tail; repeat split; auto.
    rewrite Ec; reflexivity.
Qed.

Lemma starts_sep_app h tail c :
  starts_sep (String c (h ++ tail)) = false ->
  starts_sep (String c h) = false.
Proof.
  intros H; destruct h as [|c1 [|c2 h]]; try reflexivity.
  exact H.
Qed.

Lemma split_sep_pieces s :
  Forall (fun p => contains_sep p = false) (split_sep s).
Proof.
  induction s as [s IH] using string_bounded_ind.
  destruct s as [|c s']; [repeat constructor|].
  destruct (split_sep_cases c s') as [(_ & rest & -> & -> & E)|[S0 E]]; rewrite E.
  - constructor; [reflexivity | apply IH; simpl; lia].
  - pose proof (IH s') as Hs; destruct (split_sep_head s')
      as (h & t & tail & Es & Ec & _ & _).
    rewrite Es in Hs |- *.
    assert (Hs' : Forall (fun p => contains_sep p = false) (h :: t))
      by (apply Hs; simpl; lia).
    inversion Hs' as [|? ? Hh Ht]; subst; constructor; [|exact Ht].
    change (starts_sep (String c h) || contains_sep h = false).
    rewrite Hh, orb_false_r.
    apply (starts_sep_app h tail); exact S0.
Qed.

Lemma init_calls_bad_url env username password competition_name url :
  List.length (split_sep url) <> 2 ->
  init env username password competition_name url = (inl ValueError, []).
Proof.
  intros H; unfold init.
  destruct (split_sep url) as [|a [|b [|c l]]]; try reflexivity.
  elim H; reflexivity.
Qed.

(** A URL without the scheme separator is refused before anything is
    asked of the wiki. *)
Theorem init_rejects_plain_url env username password competition_name url :
  contains_sep url = false ->
  init env username password competition_name url = (inl ValueError, []).
Proof.
  intros H; apply init_calls_bad_url.
  rewrite (split_sep_plain _ H); discriminate.
Qed.

Lemma init_rejects_plain_url_witness :
  init (fun _ => true) "bot" "secret" "LFC" "wiki.example.org"
    = (inl ValueError, []).
Proof.
  apply (init_rejects_plain_url (fun _ => true) "bot" "secret" "LFC"
           "wiki.example.org").
  reflexivity.
Defined.

(** A session is returned only for a URL of the form scheme, separator,
    host, with no further separator in either part; the site is then
    opened on that host and scheme before the login, the session carries
    the competition name, and it is not in data-only mode. *)
Theorem init_session_url env username password competition_name url self calls :
  init env username password competition_name url = (inr self, calls) ->
  exists scheme host,
    url = (scheme ++ "://" ++ host)%string /\
    contains_sep scheme = false /\ contains_sep host = false /\
    calls = [SiteConnect host "/" scheme 300; SiteLogin username password] /\
    self = {| competition_name := competition_name; csv_only := false |}.
Proof.
  unfold init; intros H.
  pose proof (join_split_sep url) as J.
  pose proof (split_sep_pieces url) as P.
  destruct (split_sep url) as [|scheme [|host [|x l]]]; try discriminate.
  destruct (env (SiteConnect host "/" scheme 300)); [|discriminate].
  destruct (env (SiteLogin username password)); [|discriminate].
  injection H as <- <-.
  inversion P as [|? ? P1 P']; subst; inversion P' as [|? ? P2 _]; subst.
  exists scheme, host; repeat split; auto.
Qed.

Lemma init_session_url_witness :
  exists scheme host,
    "https://wiki.example.org" = (scheme ++ "://" ++ host)%string /\
    contains_sep scheme = false /\ contains_sep host = false.
Proof.
  destruct (init_session_url (fun _ => true) "bot" "secret" "LFC"
              "https://wiki.example.org"
              {| competition_name := "LFC"; csv_only := false |}
              [SiteConnect "wiki.example.org" "/" "https" 300;
               SiteLogin "bot" "secret"] eq_refl)
    as (scheme & host & E & S & H & _).
  exists scheme, host; auto.
Defined.

(** ** What a run leaves of the wiki *)

Lemma assoc_store_set_other t t' body l :
  t' <> t -> assoc t' (store_set t body l) = assoc t' l.
Proof.
  intros Hne; induction l as [|[k v] l IH]; simpl.
  - destruct (String.eqb t' t) eqn:E; [apply String.eqb_eq in E; contradiction | reflexivity].
  - destruct (String.eqb t k) eqn:Ek; simpl.
    + apply String.eqb_eq in Ek; subst k.
      destruct (String.eqb t' t) eqn:E; [apply String.eqb_eq in E; contradiction | reflexivity].
    + rewrite IH; reflexivity.
Qed.

Lemma keeps_refl p : keeps p p.
Proof. intros t c H; exact H. Qed.

Lemma keeps_trans p1 p2 p3 : keeps p1 p2 -> keeps p2 p3 -> keeps p1 p3.
Proof. intros H1 H2 t c H; auto. Qed.

Lemma keeps_store_set_absent t body l :
  assoc t l = None -> keeps l (store_set t body l).
Proof.
  intros Ha t' c H.
  destruct (String.eqb t' t) eqn:E.
  - apply String.eqb_eq in E; subst; congruence.
  - apply String.eqb_neq in E; rewrite assoc_store_set_other; assumption.
Qed.

Lemma keeps_exists p p' t :
  keeps p p' -> is_some (assoc t p) = true -> is_some (assoc t p') = true.
Proof.
  intros K H; destruct (assoc t p) as [c|] eqn:E; [|discriminate].
  rewrite (K _ _ E); reflexivity.
Qed.

Lemma assoc_listed {V} t (l : list (string * V)) :
  is_some (assoc t l) = true -> In t (map fst l).
Proof.
  induction l as [|[k v] l IH]; simpl; [discriminate|].
  destruct (String.eqb t k) eqn:E; [apply String.eqb_eq in E; auto | auto].
Qed.

Section Invariants.
Context {A B : Type}.

Lemma non_destructive_bind (m : M A) (k : A -> M B) :
  non_destructive m -> (forall a, non_destructive (k a)) ->
  non_destructive (bind m k).
Proof.
  intros Hm Hk w; unfold bind; destruct (res (m w)); simpl.
  - eapply keeps_trans; [apply Hm | apply Hk].
  - apply Hm.
Qed.

Lemma read_only_bind (m : M A) (k : A -> M B) :
  read_only m -> (forall a, read_only (k a)) -> read_only (bind m k).
Proof.
  intros Hm Hk w; unfold bind; destruct (res (m w)); simpl.
  - destruct (Hm w) as [P1 F1], (Hk a (world (m w))) as [P2 F2]; split; congruence.
  - apply Hm.
Qed.

Lemma read_only_non_destructive (m : M A) : read_only m -> non_destructive m.
Proof. intros H w; destruct (H w) as [P _]; rewrite P; apply keeps_refl. Qed.

Lemma calm_bind (m : M A) (k : A -> M B) :
  calm m -> (forall a, calm (k a)) -> calm (bind m k).
Proof.
  intros Hm Hk w F; unfold bind.
  destruct (Hm w F) as (a & Ra & Fa); rewrite Ra; simpl.
  apply Hk; exact Fa.
Qed.
End Invariants.

Lemma read_only_ret {A} (a : A) : read_only (ret a).
Proof. intros w; split; reflexivity. Qed.

Lemma read_only_print s : read_only (print s).
Proof. intros w; split; reflexivity. Qed.

Lemma read_only_remote c : read_only (remote c).
Proof. intros w; unfold remote; destruct (faults w) as [|[] f]; split; reflexivity. Qed.

Lemma read_only_open_read p : read_only (open_read p).
Proof.
  intros w; unfold open_read; destruct (assoc p (local_files w)); split; reflexivity.
Qed.

Lemma read_only_for_each {A} (f : A -> M unit) l :
  (forall x, read_only (f x)) -> read_only (for_each f l).
Proof.
  intros Hf; induction l as [|x l IH]; simpl.
  - apply read_only_ret.
  - apply read_only_bind; auto.
Qed.

Lemma non_destructive_for_each {A} (f : A -> M unit) l :
  (forall x, non_destructive (f x)) -> non_destructive (for_each f l).
Proof.
  intros Hf; induction l as [|x l IH]; simpl.
  - intros w; apply keeps_refl.
  - apply non_destructive_bind; auto.
Qed.

Lemma calm_ret {A} (a : A) : calm (ret a).
Proof. intros w F; exists a; auto. Qed.

Lemma calm_print s : calm (print s).
Proof. intros w F; exists tt; auto. Qed.

Lemma calm_remote c : calm (remote c).
Proof. intros w F; exists tt; unfold remote; rewrite F; auto. Qed.

Lemma calm_for_each {A} (f : A -> M unit) l :
  (forall x, In x l -> calm (f x)) -> calm (for_each f l).
Proof.
  induction l as [|x l IH]; intros Hf; simpl.
  - apply calm_ret.
  - apply calm_bind; [apply Hf; left; reflexivity|].
    intros _; apply IH; intros y Hy; apply Hf; right; exact Hy.
Qed.

(** What each iteration establishes, and later ones cannot undo, holds
    at the end of a loop in which nothing fails. *)
Lemma for_each_establishes {A} (f : A -> M unit)
    (Q : A -> list (string * string) -> Prop) l :
  (forall x p p', Q x p -> keeps p p' -> Q x p') ->
  (forall x, In x l -> calm (f x)) ->
  (forall x, non_destructive (f x)) ->
  (forall x w, In x l -> faults w = [] -> Q x (pages (world (f x w)))) ->
  forall w, faults w = [] ->
    forall x, In x l -> Q x (pages (world (for_each f l w))).
Proof.
  intros HQ; induction l as [|y l IH]; intros Hc Hn Hf w F x Hin; [contradiction|].
  simpl; unfold bind.
  destruct (Hc y (or_introl eq_refl) w F) as ([] & Ry & Fy); rewrite Ry; simpl.
  destruct Hin as [->|Hin].
  - apply (HQ x (pages (world (f x w)))); [apply Hf; simpl; auto|].
    apply non_destructive_for_each; exact Hn.
  - apply IH; simpl in *; auto.
Qed.

Lemma create_page_non_destructive self t body :
  non_destructive (create_page self t body false).
Proof.
  intros w; unfold create_page; destruct (String.eqb t EmptyString);
    [apply keeps_refl|].
  destruct (assoc t (pages w)) as [c|] eqn:Ea; run;
    destruct (faults w) as [|[] [|[] f]] eqn:F; simpl;
    repeat (progress (rewrite ?Ea, ?F; simpl)); try apply keeps_refl;
    apply keeps_store_set_absent; exact Ea.
Qed.

Lemma upload_toc_non_destructive self toc : non_destructive (upload_toc self toc).
Proof.
  intros w; unfold upload_toc.
  destruct (assoc (toc_name toc) (pages w)) as [c|] eqn:Ea; run;
    destruct (faults w) as [|[] [|[] [|[] f]]] eqn:F; simpl;
    repeat (progress (rewrite ?Ea, ?F; simpl)); try apply keeps_refl;
    apply keeps_store_set_absent; exact Ea.
Qed.

Lemma create_pages_non_destructive self comp :
  non_destructive (create_pages self comp).
Proof.
  unfold create_pages; apply non_destructive_for_each; intros r.
  unfold create_pages_body; destruct (title_cell r).
  - apply create_page_non_destructive.
  - intros w; apply keeps_refl.
Qed.

Lemma sanity_check_wiki_read_only self comp :
  read_only (sanity_check_wiki self comp).
Proof.
  unfold sanity_check_wiki, allpages_names.
  apply read_only_bind.
  - apply read_only_bind; [apply read_only_remote|].
    intros _; apply read_only_bind; [intros w; split; reflexivity|].
    intros w'; apply read_only_ret.
  - intros l; apply read_only_bind; [apply read_only_print|].
    intros _; apply read_only_for_each; intros t.
    destruct (negb _); [apply read_only_print | apply read_only_ret].
Qed.

Lemma upload_attachments_read_only self atts :
  read_only (upload_attachments self atts).
Proof.
  unfold upload_attachments; destruct (csv_only self); [apply read_only_ret|].
  apply read_only_for_each; intros a; unfold upload_attachments_body.
  apply read_only_bind; [apply read_only_print|].
  intros _; apply read_only_bind; [apply read_only_open_read|].
  intros c; apply read_only_remote.
Qed.

(** ** The TOC display page *)

Lemma upload_toc_existing self toc c w :
  assoc (toc_name toc) (pages w) = Some c ->
  saves (evs (upload_toc self toc w)) = [] /\
  pages (world (upload_toc self toc w)) = pages w.
Proof.
  intros Ea; unfold upload_toc; run.
  destruct (faults w) as [|[] [|[] f]] eqn:F; simpl;
    repeat (progress (rewrite ?Ea, ?F; simpl)); split; reflexivity.
Qed.

(** [upload_toc] never overwrites: when the TOC page exists it still
    sends the TOC upload, but issues no save and leaves the pages as
    they were, whatever fails. *)
Theorem upload_toc_never_overwrites self toc c w :
  assoc (toc_name toc) (pages w) = Some c ->
  let o := upload_toc self toc w in
  raw_calls (evs o) = [upload_toc_data self toc] /\
  saves (evs o) = [] /\ pages (world o) = pages w.
Proof.
  intros Ea o; split; [apply upload_toc_raw_calls|].
  apply (upload_toc_existing self toc c w Ea).
Qed.

Lemma upload_toc_never_overwrites_witness :
  let w := with_pages [("Regions", "edited by hand")] Sample.fresh in
  let o := upload_toc Sample.ses Sample.regions w in
  raw_calls (evs o) = [upload_toc_data Sample.ses Sample.regions] /\
  saves (evs o) = [] /\ pages (world o) = pages w.
Proof.
  apply (upload_toc_never_overwrites Sample.ses Sample.regions "edited by hand").
  reflexivity.
Defined.

Lemma upload_toc_calm self toc : calm (upload_toc self toc).
Proof.
  intros w F; exists tt; unfold upload_toc; run.
  destruct (assoc (toc_name toc) (pages w)) eqn:Ea;
    repeat (progress (rewrite ?Ea, ?F; simpl)); auto.
Qed.

Lemma upload_toc_calm_page self toc w :
  faults w = [] ->
  assoc (toc_name toc) (pages (world (upload_toc self toc w))) =
    match assoc (toc_name toc) (pages w) with
    | Some c => Some c
    | None => Some (toc_page_body self (toc_name toc))
    end.
Proof.
  intros F; unfold upload_toc; run.
  destruct (assoc (toc_name toc) (pages w)) eqn:Ea;
    repeat (progress (rewrite ?Ea, ?F; simpl)); auto.
  apply assoc_store_set.
Qed.

(** When nothing fails, [upload_toc] returns with the TOC page on the
    wiki: the generated body if the page was missing, the old content
    otherwise; running it again saves nothing and changes nothing. *)
Theorem upload_toc_ensures_page self toc w :
  faults w = [] ->
  let o := upload_toc self toc w in
  let o' := upload_toc self toc (world o) in
  res o = Ok tt /\
  assoc (toc_name toc) (pages (world o)) =
    match assoc (toc_name toc) (pages w) with
    | Some c => Some c
    | None => Some (toc_page_body self (toc_name toc))
    end /\
  saves (evs o') = [] /\ pages (world o') = pages (world o).
Proof.
  intros F o o'.
  destruct (upload_toc_calm self toc w F) as ([] & R & F').
  pose proof (upload_toc_calm_page self toc w F) as P; fold o in P.
  split; [exact R|]; split; [exact P|].
  destruct (assoc (toc_name toc) (pages w)) as [c|];
    eapply upload_toc_existing; exact P.
Qed.

Lemma upload_toc_ensures_page_witness :
  let o := upload_toc Sample.ses Sample.regions Sample.fresh in
  res o = Ok tt /\
  assoc "Regions" (pages (world o)) = Some (toc_page_body Sample.ses "Regions").
Proof.
  destruct (upload_toc_ensures_page Sample.ses Sample.regions Sample.fresh eq_refl)
    as (R & P & _).
  split; [exact R | exact P].
Defined.

(** ** Nothing that was on the wiki is lost *)

Lemma upload_sheet_keeps self comp : non_destructive (upload_sheet self comp).
Proof.
  unfold upload_sheet.
  apply non_destructive_bind; [apply read_only_non_destructive, read_only_remote|].
  intros _; apply non_destructive_bind.
  { apply non_destructive_for_each; intros toc; apply upload_toc_non_destructive. }
  intros _; apply non_destructive_bind.
  { destruct (negb (csv_only self));
      [apply create_pages_non_destructive | intros w; apply keeps_refl]. }
  intros _; apply read_only_non_destructive, sanity_check_wiki_read_only.
Qed.

(** Whatever the mode and whatever fails, a page that is on the wiki
    before [upload_sheet], or before a full run, is still there with the
    same content afterwards. *)
Theorem publishing_keeps_existing_pages self comp atts w t c :
  assoc t (pages w) = Some c ->
  assoc t (pages (world (upload_sheet self comp w))) = Some c /\
  assoc t (pages (world (full_run self comp atts w))) = Some c.
Proof.
  intros H; split.
  - apply (upload_sheet_keeps self comp w); exact H.
  - revert H; apply (non_destructive_bind (upload_sheet self comp)).
    + apply upload_sheet_keeps.
    + intros _; apply read_only_non_destructive, upload_attachments_read_only.
Qed.

Lemma publishing_keeps_existing_pages_witness :
  let w := with_faults [false; false; true] Sample.populated in
  assoc "Page One" (pages (world (upload_sheet Sample.ses Sample.comp w)))
    = Some "one" /\
  assoc "Page One" (pages (world (full_run Sample.ses Sample.comp [Sample.doc_pdf] w)))
    = Some "one".
Proof.
  apply (publishing_keeps_existing_pages Sample.ses Sample.comp [Sample.doc_pdf]
           (with_faults [false; false; true] Sample.populated) "Page One" "one").
  reflexivity.
Defined.

(** ** The audit only reports *)

(** The audit changes neither pages nor files, calls nothing but the
    listing, and when the listing fails it raises without printing
    anything, the header included. *)
Theorem sanity_check_wiki_only_reports self comp w f :
  faults w = true :: f ->
  let o := sanity_check_wiki self comp w in
  pages (world o) = pages w /\
  Forall (fun e => issued e = None \/ issued e = Some AllPages) (evs o) /\
  res o = Raise TransportError /\ printed (evs o) = [] /\
  (forall w', pages (world (sanity_check_wiki self comp w')) = pages w' /\
              Forall (fun e => issued e = None \/ issued e = Some AllPages)
                     (evs (sanity_check_wiki self comp w'))).
Proof.
  intros F o.
  assert (G : forall w', pages (world (sanity_check_wiki self comp w')) = pages w' /\
              Forall (fun e => issued e = None \/ issued e = Some AllPages)
                     (evs (sanity_check_wiki self comp w'))).
  { intros w'; split; [apply sanity_check_wiki_read_only|].
    apply emits_sanity_check_wiki; [split; right; reflexivity | left; reflexivity]. }
  split; [apply G|]; split; [apply G|].
  unfold o, sanity_check_wiki.
  cbv beta iota zeta delta [bind allpages_names remote get_world ret print].
  rewrite F; simpl; auto.
Qed.

Lemma sanity_check_wiki_only_reports_witness :
  let o := sanity_check_wiki Sample.ses Sample.comp
             (with_faults [true] Sample.populated) in
  res o = Raise TransportError /\ printed (evs o) = [].
Proof.
  destruct (sanity_check_wiki_only_reports Sample.ses Sample.comp
              (with_faults [true] Sample.populated) [] eq_refl)
    as (_ & _ & R & P & _).
  split; [exact R | exact P].
Defined.

(** ** Attachments *)

(** [upload_attachments] leaves pages and files alone and never
    fetches, saves or lists a page, whatever the mode and the faults. *)
Theorem upload_attachments_off_pages self atts w :
  let o := upload_attachments self atts w in
  pages (world o) = pages w /\ local_files (world o) = local_files w /\
  titles_fetched (evs o) = [] /\ saves (evs o) = [] /\
  Forall (fun e => is_listing e = false) (evs o).
Proof.
  intros o; destruct (upload_attachments_read_only self atts w) as [P L].
  split; [exact P|]; split; [exact L|]; split; [|split].
  - apply observe_nothing, emits_upload_attachments; try split; reflexivity.
  - apply observe_nothing, emits_upload_attachments; try split; reflexivity.
  - apply emits_upload_attachments; try split; reflexivity.
Qed.

Lemma upload_attachments_body_ok self a c w :
  faults w = [] -> assoc (path a) (local_files w) = Some c ->
  upload_attachments_body self a w =
    Build_Outcome (Ok tt) w (attachment_events self w a).
Proof.
  intros F E; unfold upload_attachments_body, attachment_events; run.
  rewrite E; simpl; rewrite F; reflexivity.
Qed.

(** When every file is there and nothing fails, each attachment is
    announced, read and uploaded with the content of its file, in list
    order, and nothing else happens; an empty list gives no event. *)
Theorem upload_attachments_all self atts w :
  csv_only self = false ->
  faults w = [] ->
  Forall (fun a => is_some (assoc (path a) (local_files w)) = true) atts ->
  upload_attachments self atts w =
    Build_Outcome (Ok tt) w (flat_map (attachment_events self w) atts).
Proof.
  intros Hcsv F H; unfold upload_attachments; rewrite Hcsv.
  induction H as [|a atts Ha _ IH]; [reflexivity|].
  destruct (assoc (path a) (local_files w)) as [c|] eqn:E; [|discriminate].
  simpl; unfold bind.
  rewrite (upload_attachments_body_ok self a c w F E); simpl.
  rewrite IH; reflexivity.
Qed.

Lemma upload_attachments_all_witness :
  raw_calls (evs (upload_attachments Sample.ses
                    [Sample.doc_pdf; Sample.doc_pdf] Sample.fresh))
    = [upload_attachment_data Sample.ses Sample.doc_pdf;
       upload_attachment_data Sample.ses Sample.doc_pdf].
Proof.
  rewrite (upload_attachments_all Sample.ses [Sample.doc_pdf; Sample.doc_pdf]
             Sample.fresh eq_refl eq_refl).
  - reflexivity.
  - repeat constructor.
Defined.

(** ** The uploads and fetches of upload_sheet *)

Lemma shows_bind {A B C} (obs : event -> list C) L1 L2 (m : M A) (k : A -> M B) :
  shows obs L1 m -> (forall a, shows obs L2 (k a)) ->
  shows obs (L1 ++ L2) (bind m k).
Proof.
  intros Hm Hk w.
  pose proof (observe_bind obs m k w) as Eb.
  destruct (Hm w) as [[l3 H1] H2].
  destruct (res (m w)) as [a|e] eqn:E; rewrite Eb.
  - destruct (Hk a (world (m w))) as [[l4 H3] H4].
    rewrite (H2 a eq_refl); split.
    + exists l4; rewrite <- app_assoc, <- H3; reflexivity.
    + intros b Hb; rewrite (bind_ok _ _ _ _ E) in Hb; simpl in Hb.
      rewrite (H4 b Hb); reflexivity.
  - split.
    + rewrite app_nil_r; exists (l3 ++ L2).
      rewrite app_assoc, <- H1; reflexivity.
    + intros b Hb; rewrite (bind_raise _ _ _ _ E) in Hb; discriminate.
Qed.

Lemma shows_silent {A C} (obs : event -> list C) (m : M A) :
  silent obs m -> shows obs [] m.
Proof.
  intros H w; split; [rewrite (H w); apply prefix_nil | intros; apply H].
Qed.

Lemma shows_always {A C} (obs : event -> list C) L (m : M A) :
  (forall w, flat_map obs (evs (m w)) = L) -> shows obs L m.
Proof.
  intros H w; split; [rewrite (H w); apply prefix_refl | intros; apply H].
Qed.

Lemma create_pages_silent_raw_calls self comp :
  silent raw_call_of (create_pages self comp).
Proof. apply silent_emits, emits_create_pages; try split; reflexivity. Qed.

Lemma sanity_check_wiki_silent_raw_calls self comp :
  silent raw_call_of (sanity_check_wiki self comp).
Proof. apply silent_emits, emits_sanity_check_wiki; try split; reflexivity. Qed.

(** In either mode the raw calls of [upload_sheet] are the sheet upload
    followed by one TOC upload per TOC, in order: a prefix of that
    sequence in every run, all of it when [upload_sheet] returns. *)
Theorem upload_sheet_raw_calls self comp w :
  let o := upload_sheet self comp w in
  let expected := upload_sheet_data self comp
                    :: map (upload_toc_data self) (tocs comp) in
  prefix (raw_calls (evs o)) expected /\
  (res o = Ok tt -> raw_calls (evs o) = expected).
Proof.
  intros o expected.
  assert (S : shows raw_call_of expected (upload_sheet self comp)).
  { unfold expected, upload_sheet.
    apply (shows_bind raw_call_of [upload_sheet_data self comp]).
    { apply shows_always; intros w'; unfold raw_call, remote.
      destruct (faults w') as [|[] f]; reflexivity. }
    intros _.
    rewrite <- (app_nil_r (map (upload_toc_data self) (tocs comp))).
    apply shows_bind.
    { apply shows_for_each; intros toc; apply shows_always.
      intros w'; apply upload_toc_raw_calls. }
    intros _; apply shows_silent, silent_bind.
    - destruct (negb (csv_only self));
        [apply create_pages_silent_raw_calls | intros w'; reflexivity].
    - intros _; apply sanity_check_wiki_silent_raw_calls. }
  destruct (S w) as [P Q]; split; [exact P | apply Q].
Qed.

(** If the sheet upload fails, [upload_sheet] raises at once: no TOC is
    uploaded, no page is touched and no audit runs. *)
Theorem upload_sheet_sheet_failure self comp w f :
  faults w = true :: f ->
  upload_sheet self comp w =
    Build_Outcome (Raise TransportError) (with_faults f w)
      [Raised (RawCall "api" (upload_sheet_data self comp)
                 [("data_file", csv comp)])].
Proof.
  intros F; unfold upload_sheet, raw_call, remote; unfold bind at 1.
  rewrite F; reflexivity.
Qed.

Lemma upload_sheet_sheet_failure_witness :
  evs (upload_sheet Sample.ses Sample.comp (Sample.faulty [true; false]))
    = [Raised (RawCall "api" (upload_sheet_data Sample.ses Sample.comp)
                 [("data_file", csv Sample.comp)])].
Proof.
  rewrite (upload_sheet_sheet_failure Sample.ses Sample.comp
             (Sample.faulty [true; false]) [false] eq_refl).
  reflexivity.
Defined.

Lemma create_pages_shows_fetch self comp :
  Forall (fun r => title_cell r <> None) (ordered_proposals comp) ->
  shows fetch_of (nonempty_titles (ordered_proposals comp)) (create_pages self comp).
Proof.
  intros H; apply shows_always; intros w.
  apply (create_pages_titled_fetched self _ w H).
Qed.

(** In full mode, with a title on every record, the pages fetched by
    [upload_sheet] are the TOC pages in order and then the pages of the
    records with a non-empty title in order: all of them when it
    returns, a prefix otherwise. *)
Theorem upload_sheet_fetches self comp w :
  csv_only self = false ->
  Forall (fun r => title_cell r <> None) (ordered_proposals comp) ->
  let o := upload_sheet self comp w in
  let expected := map toc_name (tocs comp)
                    ++ nonempty_titles (ordered_proposals comp) in
  prefix (titles_fetched (evs o)) expected /\
  (res o = Ok tt -> titles_fetched (evs o) = expected).
Proof.
  intros Hcsv Ht o expected.
  assert (S : shows fetch_of expected (upload_sheet self comp)).
  { unfold expected, upload_sheet; rewrite Hcsv; simpl negb; cbv iota.
    apply shows_after_silent.
    { apply silent_emits, emits_remote; reflexivity. }
    intros _; apply shows_bind.
    { apply shows_for_each; intros toc; apply upload_toc_shows_fetch. }
    intros _; apply shows_then_silent.
    { apply create_pages_shows_fetch; exact Ht. }
    intros _; apply silent_emits, emits_sanity_check_wiki; try split; reflexivity. }
  destruct (S w) as [P Q]; split; [exact P | apply Q].
Qed.

Lemma upload_sheet_fetches_witness :
  titles_fetched (evs (upload_sheet Sample.ses Sample.comp Sample.fresh))
    = ["Regions"; "Page One"; "Page Two"].
Proof.
  destruct (upload_sheet_fetches Sample.ses Sample.comp Sample.fresh eq_refl)
    as [_ Q].
  - repeat constructor; discriminate.
  - apply Q; reflexivity.
Defined.

(** ** Writing a page *)

Lemma create_page_calm_absent self t body w :
  t <> EmptyString -> faults w = [] -> assoc t (pages w) = None ->
  res (create_page self t body false w) = Ok tt /\
  assoc t (pages (world (create_page self t body false w))) = Some body.
Proof.
  intros Ht F Ea; unfold create_page.
  destruct (String.eqb t EmptyString) eqn:E; [apply String.eqb_eq in E; contradiction|].
  run; repeat (progress (rewrite ?Ea, ?F; simpl)).
  split; [reflexivity | apply assoc_store_set].
Qed.

(** When nothing fails, [create_page] with a non-empty title writes the
    body if the page is missing or [create_if_exists] is set: one save,
    the page then holds the body, and every other page is as before. *)
Theorem create_page_writes self t body flag w :
  t <> EmptyString ->
  faults w = [] ->
  assoc t (pages w) = None \/ flag = true ->
  let o := create_page self t body flag w in
  res o = Ok tt /\
  saves (evs o) = [(t, body)] /\
  assoc t (pages (world o)) = Some body /\
  (forall t', t' <> t -> assoc t' (pages (world o)) = assoc t' (pages w)).
Proof.
  intros Ht F Hw; unfold create_page.
  destruct (String.eqb t EmptyString) eqn:E; [apply String.eqb_eq in E; contradiction|].
  assert (Hc : negb (is_some (assoc t (pages w))) || flag = true).
  { destruct Hw as [Ha| ->]; [rewrite Ha; reflexivity | apply orb_true_r]. }
  run; rewrite F; simpl; rewrite Hc, F; simpl.
  repeat split; [apply assoc_store_set|].
  intros t' Hne; apply assoc_store_set_other; exact Hne.
Qed.

Lemma create_page_writes_witness :
  let o := create_page Sample.ses "Page One" "new body" true Sample.populated in
  assoc "Page One" (pages (world o)) = Some "new body" /\
  assoc "Page Two" (pages (world o)) = Some "two".
Proof.
  destruct (create_page_writes Sample.ses "Page One" "new body" true Sample.populated)
    as (_ & _ & P & O).
  - discriminate.
  - reflexivity.
  - right; reflexivity.
  - split; [exact P | rewrite O; [reflexivity | discriminate]].
Defined.

(** ** A publish in which nothing fails *)

Lemma create_page_calm self t body : calm (create_page self t body false).
Proof.
  intros w F; exists tt; unfold create_page.
  destruct (String.eqb t EmptyString); [auto|].
  run; destruct (assoc t (pages w)) eqn:Ea;
    repeat (progress (rewrite ?Ea, ?F; simpl)); auto.
Qed.

Lemma create_page_calm_exists self t body w :
  t <> EmptyString -> faults w = [] ->
  is_some (assoc t (pages (world (create_page self t body false w)))) = true.
Proof.
  intros Ht F; unfold create_page.
  destruct (String.eqb t EmptyString) eqn:E; [apply String.eqb_eq in E; contradiction|].
  run; destruct (assoc t (pages w)) eqn:Ea;
    repeat (progress (rewrite ?Ea, ?F; simpl)); auto.
  rewrite assoc_store_set; reflexivity.
Qed.

Lemma create_pages_body_non_destructive self r :
  non_destructive (create_pages_body self r).
Proof.
  unfold create_pages_body; destruct (title_cell r).
  - apply create_page_non_destructive.
  - intros w; apply keeps_refl.
Qed.

Lemma create_pages_body_calm self r :
  title_cell r <> None -> calm (create_pages_body self r).
Proof.
  intros H; unfold create_pages_body; destruct (title_cell r); [|congruence].
  apply create_page_calm.
Qed.

Lemma create_pages_calm_present self comp w :
  faults w = [] ->
  Forall (fun r => title_cell r <> None) (ordered_proposals comp) ->
  let o := create_pages self comp w in
  res o = Ok tt /\ faults (world o) = [] /\
  record_pages_present (ordered_proposals comp) (pages (world o)).
Proof.
  intros F Ht o; rewrite Forall_forall in Ht.
  assert (Hc : calm (create_pages self comp)).
  { apply calm_for_each; intros r Hr; apply create_pages_body_calm, Ht, Hr. }
  destruct (Hc w F) as ([] & R & F'); split; [exact R|]; split; [exact F'|].
  intros r t Hr Et Hne.
  apply (for_each_establishes (create_pages_body self)
           (fun r p => forall t, title_cell r = Some t -> t <> EmptyString ->
                                 is_some (assoc t p) = true)
           (ordered_proposals comp)) with (x := r) (w := w); auto.
  - intros x p p' HQ K t0 E0 N0; eapply keeps_exists; eauto.
  - intros x Hx; apply create_pages_body_calm, Ht, Hx.
  - intros x; apply create_pages_body_non_destructive.
  - intros x w0 _ F0 t0 E0 N0.
    rewrite (create_pages_body_titled _ _ _ _ E0).
    apply create_page_calm_exists; assumption.
Qed.

(** When nothing fails and every record has a title, [create_pages]
    returns and the page of every record with a non-empty title is on
    the wiki afterwards. *)
Theorem create_pages_all_present self comp w :
  faults w = [] ->
  Forall (fun r => title_cell r <> None) (ordered_proposals comp) ->
  let o := create_pages self comp w in
  res o = Ok tt /\
  record_pages_present (ordered_proposals comp) (pages (world o)).
Proof.
  intros F Ht o.
  destruct (create_pages_calm_present self comp w F Ht) as (R & _ & P).
  split; assumption.
Qed.

Lemma create_pages_all_present_witness :
  let o := create_pages Sample.ses Sample.comp Sample.fresh in
  res o = Ok tt /\ record_pages_present [Sample.p1; Sample.p2] (pages (world o)).
Proof.
  apply (create_pages_all_present Sample.ses Sample.comp Sample.fresh).
  - reflexivity.
  - repeat constructor; discriminate.
Defined.

Lemma tocs_calm_present self l w :
  faults w = [] ->
  let o := for_each (upload_toc self) l w in
  res o = Ok tt /\ faults (world o) = [] /\ toc_pages_present l (pages (world o)).
Proof.
  intros F o.
  assert (Hc : calm (for_each (upload_toc self) l))
    by (apply calm_for_each; intros; apply upload_toc_calm).
  destruct (Hc w F) as ([] & R & F'); split; [exact R|]; split; [exact F'|].
  intros toc Hin.
  apply (for_each_establishes (upload_toc self)
           (fun toc p => is_some (assoc (toc_name toc) p) = true) l)
    with (x := toc) (w := w); auto.
  - intros x p p' HQ K; eapply keeps_exists; eauto.
  - intros; apply upload_toc_calm.
  - intros; apply upload_toc_non_destructive.
  - intros x w0 _ F0; rewrite (upload_toc_calm_page self x w0 F0).
    destruct (assoc (toc_name x) (pages w0)); reflexivity.
Qed.

(** The stages of [upload_sheet] when nothing fails. *)
Lemma upload_sheet_calm_stages self comp w :
  faults w = [] ->
  csv_only self = true \/
    Forall (fun r => title_cell r <> None) (ordered_proposals comp) ->
  exists w3 l,
    faults w3 = [] /\
    toc_pages_present (tocs comp) (pages w3) /\
    (csv_only self = false ->
     record_pages_present (ordered_proposals comp) (pages w3)) /\
    upload_sheet self comp w =
      Build_Outcome (res (sanity_check_wiki self comp w3))
                    (world (sanity_check_wiki self comp w3))
                    (l ++ evs (sanity_check_wiki self comp w3)).
Proof.
  intros F Hm.
  set (m1 := raw_call "api" (upload_sheet_data self comp) [("data_file", csv comp)]).
  destruct (calm_remote (RawCall "api" (upload_sheet_data self comp)
                           [("data_file", csv comp)]) w F) as ([] & R1 & F1).
  fold (raw_call "api" (upload_sheet_data self comp) [("data_file", csv comp)]) in R1, F1.
  fold m1 in R1, F1.
  destruct (tocs_calm_present self (tocs comp) (world (m1 w)) F1) as (R2 & F2 & P2).
  set (w2 := world (for_each (upload_toc self) (tocs comp) (world (m1 w)))) in *.
  set (m3 := if negb (csv_only self) then create_pages self comp else ret tt).
  assert (H3 : res (m3 w2) = Ok tt /\ faults (world (m3 w2)) = [] /\
               keeps (pages w2) (pages (world (m3 w2))) /\
               (csv_only self = false ->
                record_pages_present (ordered_proposals comp) (pages (world (m3 w2))))).
  { unfold m3; destruct (csv_only self) eqn:Ec; simpl.
    - repeat split; auto; [apply keeps_refl | discriminate].
    - destruct Hm as [Hm|Hm]; [discriminate|].
      destruct (create_pages_calm_present self comp w2 F2 Hm) as (R & F' & P).
      repeat split; auto; apply create_pages_non_destructive. }
  destruct H3 as (R3 & F3 & K3 & P3).
  exists (world (m3 w2)),
         (evs (m1 w) ++ evs (for_each (upload_toc self) (tocs comp) (world (m1 w)))
            ++ evs (m3 w2)).
  split; [exact F3|]; split; [|split; [exact P3|]].
  - intros toc Hin; eapply keeps_exists; [exact K3 | apply P2; exact Hin].
  - unfold upload_sheet; fold m1; fold m3.
    rewrite (bind_ok _ _ _ _ R1); simpl.
    rewrite (bind_ok _ _ _ _ R2); simpl; fold w2.
    rewrite (bind_ok _ _ _ _ R3); simpl.
    rewrite <- !app_assoc; reflexivity.
Qed.

(** When nothing fails (and, in full mode, every record has a title),
    [upload_sheet] returns, and afterwards the display page of every
    TOC is on the wiki and, in full mode, so is the page of every record
    with a non-empty title. *)
Theorem upload_sheet_publishes_everything self comp w :
  faults w = [] ->
  csv_only self = true \/
    Forall (fun r => title_cell r <> None) (ordered_proposals comp) ->
  let o := upload_sheet self comp w in
  res o = Ok tt /\
  toc_pages_present (tocs comp) (pages (world o)) /\
  (csv_only self = false ->
   record_pages_present (ordered_proposals comp) (pages (world o))).
Proof.
  intros F Hm o.
  destruct (upload_sheet_calm_stages self comp w F Hm) as (w3 & l & F3 & T & P & E).
  assert (H0 : hd false (faults w3) = false) by (rewrite F3; reflexivity).
  unfold o; rewrite E, (sanity_check_wiki_run self comp w3 H0); simpl.
  split; [reflexivity|]; split; assumption.
Qed.

Lemma upload_sheet_publishes_everything_witness :
  let o := upload_sheet Sample.ses Sample.comp Sample.fresh in
  res o = Ok tt /\
  toc_pages_present [Sample.regions] (pages (world o)) /\
  record_pages_present [Sample.p1; Sample.p2] (pages (world o)).
Proof.
  destruct (upload_sheet_publishes_everything Sample.ses Sample.comp Sample.fresh)
    as (R & T & P).
  - reflexivity.
  - right; repeat constructor; discriminate.
  - split; [exact R | split; [exact T | apply P; reflexivity]].
Defined.

(** The audit at the end of [upload_sheet] knows only the record
    titles: when nothing fails, the display page of every TOC whose name
    is not also a record title is printed as a page not added by the
    pipeline, even when this very run created it. *)
Theorem upload_sheet_audit_reports_toc_pages self comp w toc :
  faults w = [] ->
  csv_only self = true \/
    Forall (fun r => title_cell r <> None) (ordered_proposals comp) ->
  In toc (tocs comp) ->
  ~ In (Some (toc_name toc)) (map title_cell (ordered_proposals comp)) ->
  In (toc_name toc) (printed (evs (upload_sheet self comp w))).
Proof.
  intros F Hm Hin Hnot.
  destruct (upload_sheet_calm_stages self comp w F Hm) as (w3 & l & F3 & T & _ & E).
  assert (H0 : hd false (faults w3) = false) by (rewrite F3; reflexivity).
  rewrite E, (sanity_check_wiki_run self comp w3 H0); simpl.
  unfold printed; rewrite flat_map_app; apply in_or_app; right.
  simpl; right; fold (printed (map Printed
    (filter (fun t => negb (py_in t (map title_cell (ordered_proposals comp))))
            (map fst (pages w3))))).
  rewrite printed_lines; apply filter_In; split.
  - apply assoc_listed, T, Hin.
  - apply negb_true_iff, not_true_iff_false; rewrite py_in_spec; exact Hnot.
Qed.

Lemma upload_sheet_audit_reports_toc_pages_witness :
  In "Regions" (printed (evs (upload_sheet Sample.ses Sample.comp Sample.fresh))).
Proof.
  apply (upload_sheet_audit_reports_toc_pages Sample.ses Sample.comp Sample.fresh
           Sample.regions).
  - reflexivity.
  - right; repeat constructor; discriminate.
  - left; reflexivity.
  - intros [H|[H|[]]]; discriminate H.
Defined.

(** ** Which exceptions come out *)

Lemma for_each_raise_inv {A} (f : A -> M unit) l w e :
  res (for_each f l w) = Raise e ->
  exists x w', In x l /\ res (f x w') = Raise e.
Proof.
  revert w; induction l as [|x l IH]; intros w; simpl; [discriminate|].
  unfold bind; destruct (res (f x w)) as [a|e'] eqn:E; simpl.
  - intros H; destruct (IH _ H) as (y & w' & Hy & Ry); exists y, w'; auto.
  - intros H; injection H as ->; exists x, w; auto.
Qed.

Lemma remote_raises c w e : res (remote c w) = Raise e -> e = TransportError.
Proof.
  unfold remote; destruct (faults w) as [|[] f]; simpl; congruence.
Qed.

Lemma upload_toc_raises self toc w e :
  res (upload_toc self toc w) = Raise e -> e = TransportError.
Proof.
  unfold upload_toc; run.
  destruct (faults w) as [|[] [|[] [|[] f]]] eqn:F; simpl;
    repeat (progress (rewrite ?F; simpl));
    destruct (negb (is_some (assoc (toc_name toc) (pages w)))); simpl;
    repeat (progress (rewrite ?F; simpl)); congruence.
Qed.

Lemma create_pages_untitled_raises self comp w :
  (exists r, In r (ordered_proposals comp) /\ title_cell r = None) ->
  res (create_pages self comp w) = Raise (PyException title_adder_message).
Proof.
  intros H; destruct (titled_prefix_split _ H) as (r & post & El & Hr).
  pose proof (create_pages_titled_returns self _ w
                (titled_prefix_titled (ordered_proposals comp))) as Hok.
  unfold create_pages; rewrite El.
  rewrite (for_each_stop _ _ _ _ _ (PyException title_adder_message) Hok).
  - reflexivity.
  - rewrite (create_pages_body_untitled _ _ _ Hr); reflexivity.
Qed.

(** [create_pages] never lets a failure of the wiki out: the only
    exception it raises is the title-adder one, and only when some
    record has no title. *)
Theorem create_pages_raises_only_for_titles self comp w e :
  res (create_pages self comp w) = Raise e ->
  e = PyException title_adder_message /\
  exists r, In r (ordered_proposals comp) /\ title_cell r = None.
Proof.
  intros H; destruct (for_each_raise_inv _ _ _ _ H) as (r & w' & Hin & Hr).
  destruct (title_cell r) as [t|] eqn:Et.
  - rewrite create_pages_body_returns in Hr by congruence; discriminate.
  - rewrite (create_pages_body_untitled _ _ _ Et) in Hr; simpl in Hr.
    injection Hr as <-; split; [reflexivity | exists r; auto].
Qed.

Lemma create_pages_raises_only_for_titles_witness :
  exists r, In r [Sample.p1; Sample.untitled] /\ title_cell r = None.
Proof.
  apply (create_pages_raises_only_for_titles Sample.ses
           (Sample.with_proposals [Sample.p1; Sample.untitled])
           (Sample.faulty [true; true]) (PyException title_adder_message)).
  reflexivity.
Defined.

(** In full mode a dataset with an untitled record never gets audited:
    [upload_sheet] raises, with a transport error or the title-adder
    exception, and the pages are never listed. *)
Theorem upload_sheet_untitled_never_audits self comp w :
  csv_only self = false ->
  (exists r, In r (ordered_proposals comp) /\ title_cell r = None) ->
  let o := upload_sheet self comp w in
  (res o = Raise TransportError \/
   res o = Raise (PyException title_adder_message)) /\
  Forall (fun e => is_listing e = false) (evs o).
Proof.
  intros Hcsv Hu o; unfold o, upload_sheet; rewrite Hcsv; simpl negb; cbv iota.
  set (m1 := raw_call "api" (upload_sheet_data self comp) [("data_file", csv comp)]).
  assert (E1 : emits (fun e => is_listing e = false) m1)
    by (apply emits_remote; reflexivity).
  assert (E2 : emits (fun e => is_listing e = false)
                 (for_each (upload_toc self) (tocs comp))).
  { apply emits_for_each_in; intros toc _; apply emits_upload_toc; split; reflexivity. }
  assert (E3 : emits (fun e => is_listing e = false) (create_pages self comp))
    by (apply emits_create_pages; try split; reflexivity).
  destruct (res (m1 w)) as [[]|e] eqn:R1.
  - rewrite (bind_ok _ _ _ _ R1); cbn [res evs world].
    destruct (res (for_each (upload_toc self) (tocs comp) (world (m1 w))))
      as [[]|e] eqn:R2.
    + rewrite (bind_ok _ _ _ _ R2); cbn [res evs world].
      rewrite (bind_raise _ _ _ _ (create_pages_untitled_raises self comp _ Hu));
        cbn [res evs world].
      split; [right; reflexivity|].
      repeat (apply Forall_app; split); [apply E1 | apply E2 | apply E3].
    + rewrite (bind_raise _ _ _ _ R2); cbn [res evs world].
      destruct (for_each_raise_inv _ _ _ _ R2) as (toc & w' & _ & Rt).
      rewrite (upload_toc_raises _ _ _ _ Rt).
      split; [left; reflexivity|].
      apply Forall_app; split; [apply E1 | apply E2].
  - rewrite (bind_raise _ _ _ _ R1); cbn [res evs world].
    rewrite (remote_raises _ _ _ R1); split; [left; reflexivity | apply E1].
Qed.

Lemma upload_sheet_untitled_never_audits_witness :
  let o := upload_sheet Sample.ses
             (Sample.with_proposals [Sample.p1; Sample.untitled]) Sample.fresh in
  res o = Raise (PyException title_adder_message) /\
  Forall (fun e => is_listing e = false) (evs o).
Proof.
  destruct (upload_sheet_untitled_never_audits Sample.ses
              (Sample.with_proposals [Sample.p1; Sample.untitled]) Sample.fresh
              eq_refl) as [_ L].
  - exists Sample.untitled; split; [right; left; reflexivity | reflexivity].
  - split; [reflexivity | exact L].
Defined.

Lemma upload_attachments_body_raises self a w e :
  res (upload_attachments_body self a w) = Raise e ->
  (e = IOError /\ assoc (path a) (local_files w) = None) \/
  (e = TransportError /\ assoc (path a) (local_files w) <> None).
Proof.
  unfold upload_attachments_body; run.
  destruct (assoc (path a) (local_files w)) eqn:E; simpl.
  - destruct (faults w) as [|[] f]; simpl; try discriminate.
    intros H; injection H as <-; right; split; congruence.
  - intros H; injection H as <-; left; auto.
Qed.

Lemma for_each_raise_split {A} (f : A -> M unit) l w e :
  res (for_each f l w) = Raise e ->
  exists pre x post,
    l = pre ++ x :: post /\
    res (for_each f pre w) = Ok tt /\
    res (f x (world (for_each f pre w))) = Raise e.
Proof.
  revert w; induction l as [|y l IH]; intros w; simpl; [discriminate|].
  unfold bind; destruct (res (f y w)) as [[]|e'] eqn:E; simpl.
  - intros H; destruct (IH _ H) as (pre & x & post & -> & Rp & Rx).
    exists (y :: pre), x, post; simpl; unfold bind; rewrite E; simpl; auto.
  - intros H; injection H as ->; exists [], y, l; auto.
Qed.

(** [upload_attachments] raises only for an attachment of the list:
    [IOError] when its file is not there, a transport error otherwise;
    in data-only mode it never raises. *)
Theorem upload_attachments_raises_for self atts w e :
  res (upload_attachments self atts w) = Raise e ->
  csv_only self = false /\
  exists a, In a atts /\
    ((e = IOError /\ assoc (path a) (local_files w) = None) \/
     (e = TransportError /\ assoc (path a) (local_files w) <> None)).
Proof.
  unfold upload_attachments; destruct (csv_only self) eqn:Hcsv; [discriminate|].
  intros H; split; [reflexivity|].
  destruct (for_each_raise_split _ _ _ _ H) as (pre & a & post & -> & Rp & Ra).
  exists a; split; [apply in_or_app; right; left; reflexivity|].
  apply upload_attachments_body_raises in Ra.
  pose proof (upload_attachments_read_only self pre w) as [_ L].
  unfold upload_attachments in L; rewrite Hcsv in L; rewrite L in Ra; exact Ra.
Qed.

Lemma upload_attachments_raises_for_witness :
  exists a, In a [Sample.doc_pdf; Sample.lost_pdf] /\
    ((IOError = IOError /\ assoc (path a) (local_files Sample.fresh) = None) \/
     (IOError = TransportError /\ assoc (path a) (local_files Sample.fresh) <> None)).
Proof.
  apply (upload_attachments_raises_for Sample.ses [Sample.doc_pdf; Sample.lost_pdf]
           Sample.fresh IOError).
  reflexivity.
Defined.

(** ** Publishing again *)

Lemma for_each_settled {A} (f : A -> M unit) l w :
  (forall x w', In x l -> pages w' = pages w ->
     saves (evs (f x w')) = [] /\ pages (world (f x w')) = pages w') ->
  saves (evs (for_each f l w)) = [] /\ pages (world (for_each f l w)) = pages w.
Proof.
  revert w; induction l as [|x l IH]; intros w Hf; simpl; [auto|].
  destruct (Hf x w (or_introl eq_refl) eq_refl) as [S1 P1].
  unfold bind; destruct (res (f x w)); simpl; [|auto].
  destruct (IH (world (f x w))) as [S2 P2].
  { intros y w' Hy Hw'; apply Hf; [right; exact Hy | congruence]. }
  unfold saves in *; rewrite flat_map_app, S1, S2; split; [reflexivity | congruence].
Qed.

Lemma remote_settled c w :
  saves (evs (remote c w)) = match c with PageSave t b => [(t, b)] | _ => [] end
  /\ pages (world (remote c w)) = pages w.
Proof.
  unfold remote; destruct (faults w) as [|[] f]; destruct c; simpl; auto.
Qed.

Lemma create_pages_body_settled self r w :
  (forall t, title_cell r = Some t -> t <> EmptyString ->
             is_some (assoc t (pages w)) = true) ->
  saves (evs (create_pages_body self r w)) = [] /\
  pages (world (create_pages_body self r w)) = pages w.
Proof.
  intros H; unfold create_pages_body; destruct (title_cell r) as [t|]; [|auto].
  destruct (String.eqb t EmptyString) eqn:E.
  - apply String.eqb_eq in E; subst; auto.
  - apply String.eqb_neq in E.
    specialize (H t eq_refl E).
    destruct (assoc t (pages w)) as [c|] eqn:Ea; [|discriminate].
    destruct (create_page_existing self t (proposal_page_body self (key r)) c w Ea)
      as (_ & P & S); auto.
Qed.

(** Once the TOC pages and (in full mode) the record pages are on the
    wiki, [upload_sheet] saves nothing and leaves the pages as they are,
    whatever fails. *)
Lemma upload_sheet_settled self comp w :
  toc_pages_present (tocs comp) (pages w) ->
  (csv_only self = false ->
   record_pages_present (ordered_proposals comp) (pages w)) ->
  saves (evs (upload_sheet self comp w)) = [] /\
  pages (world (upload_sheet self comp w)) = pages w.
Proof.
  intros T P; unfold upload_sheet.
  set (m1 := raw_call "api" (upload_sheet_data self comp) [("data_file", csv comp)]).
  destruct (remote_settled (RawCall "api" (upload_sheet_data self comp)
                              [("data_file", csv comp)]) w) as [S1 P1].
  fold (raw_call "api" (upload_sheet_data self comp) [("data_file", csv comp)]) in S1, P1.
  fold m1 in S1, P1.
  destruct (res (m1 w)) as [[]|e] eqn:R1;
    [rewrite (bind_ok _ _ _ _ R1) | rewrite (bind_raise _ _ _ _ R1)];
    cbn [res evs world]; [|auto].
  destruct (for_each_settled (upload_toc self) (tocs comp) (world (m1 w))) as [S2 P2].
  { intros toc w' Hin Hw'.
    specialize (T toc Hin); rewrite <- P1, <- Hw' in T.
    destruct (assoc (toc_name toc) (pages w')) as [c|] eqn:Ea; [|discriminate].
    apply (upload_toc_existing self toc c w' Ea). }
  set (m2 := for_each (upload_toc self) (tocs comp)) in *.
  destruct (res (m2 (world (m1 w)))) as [[]|e] eqn:R2;
    [rewrite (bind_ok _ _ _ _ R2) | rewrite (bind_raise _ _ _ _ R2)];
    cbn [res evs world]; unfold saves in *;
    [|rewrite flat_map_app, S1, S2; split; [reflexivity | congruence]].
  set (m3 := if negb (csv_only self) then create_pages self comp else ret tt).
  assert (H3 : flat_map save_of (evs (m3 (world (m2 (world (m1 w)))))) = [] /\
               pages (world (m3 (world (m2 (world (m1 w)))))) =
                 pages (world (m2 (world (m1 w))))).
  { unfold m3; destruct (csv_only self); simpl; [auto|].
    apply (for_each_settled (create_pages_body self)).
    intros r w' Hin Hw'; apply create_pages_body_settled.
    intros t Et Hne; rewrite Hw', P2, P1; apply (P eq_refl r t); assumption. }
  destruct H3 as [S3 P3].
  assert (H4 : forall w', flat_map save_of (evs (sanity_check_wiki self comp w')) = [] /\
                          pages (world (sanity_check_wiki self comp w')) = pages w').
  { intros w'; split; [|apply sanity_check_wiki_read_only].
    apply observe_nothing, emits_sanity_check_wiki; try split; reflexivity. }
  destruct (res (m3 (world (m2 (world (m1 w)))))) as [[]|e] eqn:R3;
    [rewrite (bind_ok _ _ _ _ R3) | rewrite (bind_raise _ _ _ _ R3)];
    cbn [res evs world].
  - destruct (H4 (world (m3 (world (m2 (world (m1 w))))))) as [S4 P4].
    rewrite !flat_map_app, S1, S2, S3, S4; split; [reflexivity | congruence].
  - rewrite !flat_map_app, S1, S2, S3; split; [reflexivity | congruence].
Qed.

(** After an [upload_sheet] in which nothing failed, another
    [upload_sheet] of the same competition saves nothing and leaves the
    pages as they are, whatever fails during it. *)
Theorem upload_sheet_again_saves_nothing self comp w f :
  faults w = [] ->
  csv_only self = true \/
    Forall (fun r => title_cell r <> None) (ordered_proposals comp) ->
  let o1 := upload_sheet self comp w in
  let o2 := upload_sheet self comp (with_faults f (world o1)) in
  saves (evs o2) = [] /\ pages (world o2) = pages (world o1).
Proof.
  intros F Hm o1 o2.
  destruct (upload_sheet_calm_stages self comp w F Hm) as (w3 & l & F3 & T & P & E).
  assert (H0 : hd false (faults w3) = false) by (rewrite F3; reflexivity).
  assert (Pw : pages (world o1) = pages w3).
  { unfold o1; rewrite E, (sanity_check_wiki_run self comp w3 H0); reflexivity. }
  destruct (upload_sheet_settled self comp (with_faults f (world o1))) as [S2 P2].
  - simpl; rewrite Pw; exact T.
  - simpl; rewrite Pw; exact P.
  - split; [exact S2 | exact P2].
Qed.

Lemma upload_sheet_again_saves_nothing_witness :
  let o1 := upload_sheet Sample.ses Sample.comp Sample.fresh in
  let o2 := upload_sheet Sample.ses Sample.comp
              (with_faults [false; true] (world o1)) in
  saves (evs o2) = [] /\ pages (world o2) = pages (world o1).
Proof.
  apply (upload_sheet_again_saves_nothing Sample.ses Sample.comp Sample.fresh
           [false; true]).
  - reflexivity.
  - right; repeat constructor; discriminate.
Defined.

(** ** Records that share a title *)

Lemma create_page_other self t t' body w :
  t' <> t ->
  assoc t' (pages (world (create_page self t body false w))) = assoc t' (pages w).
Proof.
  intros Hne; unfold create_page; destruct (String.eqb t EmptyString); [reflexivity|].
  run; destruct (assoc t (pages w)) eqn:Ea;
    destruct (faults w) as [|[] [|[] f]] eqn:F; simpl;
    repeat (progress (rewrite ?Ea, ?F; simpl)); try reflexivity;
    apply assoc_store_set_other; exact Hne.
Qed.

Lemma create_pages_others self l t w :
  Forall (fun r => title_cell r <> Some t) l ->
  assoc t (pages (world (for_each (create_pages_body self) l w))) = assoc t (pages w).
Proof.
  intros H; revert w; induction H as [|r l Hr _ IH]; intros w; [reflexivity|].
  simpl; unfold bind.
  assert (Hb : assoc t (pages (world (create_pages_body self r w))) = assoc t (pages w)).
  { unfold create_pages_body; destruct (title_cell r) as [t0|]; [|reflexivity].
    apply create_page_other; congruence. }
  destruct (res (create_pages_body self r w)); simpl; [rewrite IH|]; exact Hb.
Qed.

(** When two records share a title, the first one wins: if nothing
    fails and the page is missing at the start, the page ends up with
    the body generated for the first record that has that title. *)
Theorem create_pages_first_record_wins self comp pre r post t w :
  faults w = [] ->
  ordered_proposals comp = pre ++ r :: post ->
  Forall (fun r' => title_cell r' <> None) pre ->
  Forall (fun r' => title_cell r' <> Some t) pre ->
  title_cell r = Some t -> t <> EmptyString ->
  assoc t (pages w) = None ->
  assoc t (pages (world (create_pages self comp w)))
    = Some (proposal_page_body self (key r)).
Proof.
  intros F El Ht Hd Er Hne Ea; unfold create_pages; rewrite El.
  assert (Hc : calm (for_each (create_pages_body self) pre)).
  { apply calm_for_each; intros x Hx; apply create_pages_body_calm.
    revert x Hx; apply Forall_forall; exact Ht. }
  destruct (Hc w F) as ([] & Rp & Fp).
  rewrite (for_each_app_ok _ _ _ _ Rp); cbn [world]; simpl for_each.
  set (w1 := world (for_each (create_pages_body self) pre w)) in *.
  assert (E1 : assoc t (pages w1) = None)
    by (unfold w1; rewrite create_pages_others; assumption).
  destruct (create_page_calm_absent self t (proposal_page_body self (key r)) w1
              Hne Fp E1) as (R & P).
  rewrite <- (create_pages_body_titled _ _ _ _ Er) in R, P.
  rewrite (bind_ok _ _ _ _ R); cbn [world].
  apply (non_destructive_for_each (create_pages_body self) post
           (create_pages_body_non_destructive self)); exact P.
Qed.

Lemma create_pages_first_record_wins_witness :
  let twin := {| key := "p9"; title_cell := Some "Page One" |} in
  assoc "Page One"
    (pages (world (create_pages Sample.ses
                     (Sample.with_proposals [Sample.p2; Sample.p1; twin])
                     Sample.fresh)))
    = Some (proposal_page_body Sample.ses "p1").
Proof.
  intros twin.
  apply (create_pages_first_record_wins Sample.ses
           (Sample.with_proposals [Sample.p2; Sample.p1; twin])
           [Sample.p2] Sample.p1 [twin] "Page One" Sample.fresh);
    try reflexivity; try discriminate;
    repeat constructor; discriminate.
Defined.
